(** * backend/app.py: slide-outline parser, theme table, deck builder, handlers

    A shallow embedding of [src/backend/app.py].  Python [str] values are
    sequences of Unicode code points; the regular expression of
    [parse_slides] is kept as a syntax tree and run by a backtracking
    matcher written after CPython's [sre] engine, so that the properties
    below are properties of the pattern the source contains. *)

From Stdlib Require Import ZArith NArith List String Ascii Bool Lia.
From Stdlib Require Import DecimalString.
From stdpp Require Import base option list gmap.

Set Default Proof Using "Type".
Open Scope N_scope.

(** ** Python strings *)

Module PyStr.

(** A character is its code point. *)
Definition char := N.
Definition str := list char.

(** [py "abc"]: the Python string with the characters of an ASCII literal. *)
Definition py (s : string) : str := map N_of_ascii (list_ascii_of_string s).

Definition LF : char := 10.
Definition TAB : char := 9.
Definition SPACE : char := 32.
Definition HYPHEN : char := 45.
Definition COLON : char := 58.
(** U+2022, the bullet dot. *)
Definition BULLET : char := 8226.
(** U+27A4, the arrowhead written before every bullet line. *)
Definition ARROW : char := 10148.

(** [str.isspace] on one character ([Py_UNICODE_ISSPACE]); the same table
    serves [str.strip()] without argument and the pattern class [\s]. *)
Definition whitespace : list char :=
  [9; 10; 11; 12; 13; 28; 29; 30; 31; 32; 133; 160; 5760;
   8192; 8193; 8194; 8195; 8196; 8197; 8198; 8199; 8200; 8201; 8202;
   8232; 8233; 8239; 8287; 12288].

Definition is_space (c : char) : bool := existsb (N.eqb c) whitespace.

(** Decimal digits, the pattern class [\d] on [str] patterns
    ([Py_UNICODE_ISDECIMAL]): general category Nd of the Unicode
    Character Database 14.0.  Every entry of [decimal_zeros] is the digit
    zero of a script and starts a run of ten; the mathematical digits
    U+1D7CE..U+1D7FF are five such runs in a row. *)
Definition decimal_zeros : list char :=
  [48; 1632; 1776; 1984; 2406; 2534; 2662; 2790; 2918; 3046; 3174; 3302;
   3430; 3558; 3664; 3792; 3872; 4160; 4240; 6112; 6160; 6470; 6608; 6784;
   6800; 6992; 7088; 7232; 7248; 42528; 43216; 43264; 43472; 43504; 43600;
   44016; 65296; 66720; 68912; 69734; 69872; 69942; 70096; 70384; 70736;
   70864; 71248; 71360; 71472; 71904; 72016; 72784; 73040; 73120; 92768;
   92864; 93008; 120782; 120792; 120802; 120812; 120822; 123200; 123632;
   125264; 130032].

Definition is_digit (c : char) : bool :=
  existsb (fun z => (z <=? c) && (c <=? z + 9)) decimal_zeros.

(** [s.lstrip(chars)], [s.rstrip(chars)], [s.strip(chars)], the set of
    characters given by its membership test. *)
Fixpoint lstrip_by (cls : char -> bool) (s : str) : str :=
  match s with
  | c :: s' => if cls c then lstrip_by cls s' else s
  | [] => []
  end.

Definition rstrip_by (cls : char -> bool) (s : str) : str :=
  rev (lstrip_by cls (rev s)).

Definition strip_by (cls : char -> bool) (s : str) : str :=
  rstrip_by cls (lstrip_by cls s).

(** [s.strip()] *)
Definition strip (s : str) : str := strip_by is_space s.

(** [s.strip(chars)] *)
Definition strip_chars (chars : str) (s : str) : str :=
  strip_by (fun c => existsb (N.eqb c) chars) s.

(** [s.split(sep)] for a one-character separator: never the empty list,
    [''.split(sep)] is [['']]. *)
Fixpoint split (sep : char) (s : str) : list str :=
  match s with
  | [] => [[]]
  | c :: s' =>
      if c =? sep then [] :: split sep s'
      else match split sep s' with
           | l :: ls => (c :: l) :: ls
           | [] => [[c]]
           end
  end.

(** Truth value of a string: non-empty. *)
Definition truthy (s : str) : bool :=
  match s with [] => false | _ :: _ => true end.

(** [l[:stop]] for a Python int [stop]: a negative [stop] counts from the
    end, and everything is clamped to the list. *)
Definition slice_to {A} (l : list A) (stop : Z) : list A :=
  if (stop <? 0)%Z
  then take (Z.to_nat (Z.max 0 (Z.of_nat (length l) + stop))) l
  else take (Z.to_nat stop) l.

End PyStr.
Import PyStr.

(** ** The regular-expression engine *)

Module Sre.

(** The operators the pattern of [parse_slides] parses to, named after
    the opcodes of [sre_parse].  A repeat is always a repeat of a single
    character class, which is what [\s*], [\d+] and [.*?] are. *)
Inductive regex : Type :=
| Literal (c : char)
| Category (cls : char -> bool)
| MaxRepeat (lo : nat) (cls : char -> bool)
| MinRepeat (lo : nat) (cls : char -> bool)
| Cat (r1 r2 : regex)
| Branch (r1 r2 : regex)
| Subpattern (r : regex)
| Assert (r : regex)
| AtEnd.

(** A matching state: the text from the current position on, and the
    text of group 1 if the group has been closed. *)
Record mstate : Type := MState { rest : str; group1 : option str }.

Definition start (s : str) : mstate := MState s None.
Definition move (st : mstate) (s : str) : mstate := MState s (group1 st).

(** Group 1 spans from the position of [st0] to the position of [st1]. *)
Definition close_group (st0 st1 : mstate) : mstate :=
  MState (rest st1)
         (Some (take (length (rest st0) - length (rest st1)) (rest st0))).

(** [$] without MULTILINE: at the end, or before a newline that ends
    the text. *)
Definition at_end (s : str) : bool :=
  match s with
  | [] => true
  | [c] => c =? LF
  | _ => false
  end.

Section Repeat.
Context {A : Type} (cls : char -> bool) (k : str -> option A).

(** Greedy repeat: take one more character while the class allows,
    and fall back to the shorter run when the rest of the pattern
    fails after the longer one. *)
Fixpoint repeat_max (lo : nat) (s : str) : option A :=
  let stop := match lo with O => k s | S _ => None end in
  match s with
  | c :: s' =>
      if cls c
      then match repeat_max (pred lo) s' with
           | Some r => Some r
           | None => stop
           end
      else stop
  | [] => stop
  end.

(** Lazy repeat: try the rest of the pattern first and take one more
    character only when it fails. *)
Fixpoint repeat_min (lo : nat) (s : str) : option A :=
  let more :=
    match s with
    | c :: s' => if cls c then repeat_min (pred lo) s' else None
    | [] => None
    end in
  match lo with
  | O => match k s with Some r => Some r | None => more end
  | S _ => more
  end.
End Repeat.

(** The backtracking matcher, in continuation-passing style: [k] is the
    rest of the pattern, and the first success in priority order is the
    match. *)
Fixpoint sre_match (r : regex) (k : mstate -> option mstate) (st : mstate)
  : option mstate :=
  match r with
  | Literal c =>
      match rest st with
      | x :: s' => if x =? c then k (move st s') else None
      | [] => None
      end
  | Category cls =>
      match rest st with
      | x :: s' => if cls x then k (move st s') else None
      | [] => None
      end
  | MaxRepeat lo cls => repeat_max cls (fun s' => k (move st s')) lo (rest st)
  | MinRepeat lo cls => repeat_min cls (fun s' => k (move st s')) lo (rest st)
  | Cat r1 r2 => sre_match r1 (sre_match r2 k) st
  | Branch r1 r2 =>
      match sre_match r1 k st with
      | Some st' => Some st'
      | None => sre_match r2 k st
      end
  | Subpattern r1 => sre_match r1 (fun st' => k (close_group st st')) st
  | Assert r1 =>
      match sre_match r1 Some st with
      | Some st' => k (MState (rest st) (group1 st'))
      | None => None
      end
  | AtEnd => if at_end (rest st) then k st else None
  end.

(** [pattern.match] at the current position. *)
Definition match_at (r : regex) (s : str) : option mstate :=
  sre_match r Some (start s).

(** [re.findall] for a pattern with one group: scan from the left, keep
    group 1 of every match (the empty string when the group did not
    take part), resume where the match ended, and move one character on
    where there is no match.  After an empty match the scan moves one
    character on as well.  [fuel] bounds the number of positions tried. *)
Fixpoint findall_from (fuel : nat) (r : regex) (s : str) : list str :=
  match fuel with
  | O => []
  | S fuel' =>
      let next := match s with
                  | [] => []
                  | _ :: s' => findall_from fuel' r s'
                  end in
      match match_at r s with
      | Some st' =>
          default [] (group1 st') ::
            (if (length (rest st') <? length s)%nat
             then findall_from fuel' r (rest st')
             else next)
      | None => next
      end
  end.

Definition findall (r : regex) (s : str) : list str :=
  findall_from (S (length s)) r s.

(** A literal word. *)
Fixpoint word (w : str) : regex :=
  match w with
  | [] => MaxRepeat 0 (fun _ => false)
  | [c] => Literal c
  | c :: w' => Cat (Literal c) (word w')
  end.

(** [.] under DOTALL. *)
Definition any : char -> bool := fun _ => true.

End Sre.
Import Sre.

(** ** parse_slides *)

(** [Slide\s*\d+\s*:] *)
Definition marker : regex :=
  Cat (word (py "Slide"))
      (Cat (MaxRepeat 0 is_space)
           (Cat (MaxRepeat 1 is_digit)
                (Cat (MaxRepeat 0 is_space) (Literal COLON)))).

(** [Slide\s*\d+\s*:\s*(.*?)(?=Slide\s*\d+\s*:|$)] with [re.DOTALL]. *)
Definition slide_pattern : regex :=
  Cat marker
      (Cat (MaxRepeat 0 is_space)
           (Cat (Subpattern (MinRepeat 0 any))
                (Assert (Branch marker AtEnd)))).

Record slide_record : Type := Slide { title : str; points : list str }.

(** The characters of [" -•\n"]. *)
Definition glyphs : str := [SPACE; HYPHEN; BULLET; LF].

(** [[l.strip(" -•\n") for l in s.strip().split("\n") if l.strip()]] *)
Definition segment_lines (s : str) : list str :=
  map (strip_chars glyphs)
      (filter (fun l => truthy (strip l) = true) (split LF (strip s))).

(** The body of the loop over the segments. *)
Definition parse_step (parsed : list slide_record) (s : str)
  : list slide_record :=
  match segment_lines s with
  | [] => parsed
  | l :: ls => parsed ++ [Slide l ls]
  end.

Definition parse_slides (text : str) (max_slides : Z) : list slide_record :=
  let slides := findall slide_pattern text in
  let parsed := fold_left parse_step slides [] in
  slice_to parsed max_slides.

Definition nl (a b : str) : str := a ++ LF :: b.

Definition scenario : str :=
  nl (py "Slide 1: Intro")
     (nl (py "- point a")
         (nl (py "- point b")
             (nl (py "Slide 2: Conclusion") (py "- point c")))).

(** ** Theme table *)

Record rgb : Type := RGBColor { red : N; green : N; blue : N }.

(** One entry of [theme_colors]: the dict with the keys ["bg"] and ["text"]. *)
Record theme : Type := Theme { bg : rgb; text : rgb }.

Definition theme_colors : gmap str theme :=
  <[py "modern" := Theme (RGBColor 25 25 112) (RGBColor 255 255 255)]>
  (<[py "minimal" := Theme (RGBColor 255 255 255) (RGBColor 30 30 30)]>
  (<[py "corporate" := Theme (RGBColor 0 51 102) (RGBColor 255 215 0)]>
  (<[py "creative" := Theme (RGBColor 128 0 128) (RGBColor 255 255 255)]>
  (<[py "dark" := Theme (RGBColor 15 15 15) (RGBColor 200 200 200)]> ∅)))).

(** [theme_colors.get(template, theme_colors["modern"])]: the default is
    evaluated first, and a subscript with a missing key raises KeyError,
    which is [None] here. *)
Definition lookup_colors (template : str) : option theme :=
  fallback ← theme_colors !! py "modern";
  Some (default fallback (theme_colors !! template)).

(** ** The presentation document *)

(** The objects of the python-pptx library that the program touches, as
    plain records: a presentation is its list of slides, a slide its
    background fill and its shapes, a text box its paragraphs. *)
Module Pptx.

Inductive alignment : Type := PP_ALIGN_CENTER.

(** A paragraph of a text frame with the properties the program sets;
    [None] is a property left to the defaults of the document.  [p_text]
    is the text as [paragraph.text] reads it. *)
Record paragraph : Type := Paragraph {
  p_text : str;
  font_size : option Z;
  font_bold : option bool;
  font_color : option rgb;
  p_alignment : option alignment;
  level : Z;
  space_after : option Z
}.

Definition empty_paragraph : paragraph :=
  Paragraph [] None None None None 0 None.

(** A text box: its position and size in English Metric Units and its
    text frame. *)
Record textbox : Type := TextBox {
  left : Z; top : Z; width : Z; height : Z;
  word_wrap : option bool;
  paragraphs : list paragraph
}.

Record slide : Type := PSlide {
  background : option rgb;
  shapes : list textbox
}.

Record presentation : Type := Prs {
  slide_width : Z;
  slide_height : Z;
  slides : list slide
}.

(** [Inches(x)] and [Pt(x)] truncate to whole EMU; the lengths the
    program uses, as they evaluate. *)
Definition Inches_13_33 : Z := 12188952.
Definition Inches_7_5 : Z := 6858000.
Definition Inches_0_5 : Z := 457200.
Definition Inches_0_8 : Z := 731520.
Definition Inches_12_3 : Z := 11247120.
Definition Inches_1_2 : Z := 1097280.
Definition Inches_1_5 : Z := 1371600.
Definition Inches_2_3 : Z := 2103120.
Definition Inches_10_3 : Z := 9418320.
Definition Inches_4 : Z := 3657600.
Definition Pt (x : Z) : Z := (x * 12700)%Z.

(** [Presentation()]: the default template has no slide. *)
Definition Presentation : presentation := Prs 9144000 6858000 [].

(** A slide made from the blank layout has no shape. *)
Definition blank_slide : slide := PSlide None [].

(** [shapes.add_textbox]: the new text frame holds one empty paragraph
    and does not wrap its lines. *)
Definition add_textbox (l t w h : Z) : textbox :=
  TextBox l t w h (Some false) [empty_paragraph].

(** [text_frame.clear()] keeps one empty paragraph. *)
Definition clear (tb : textbox) : textbox :=
  TextBox (left tb) (top tb) (width tb) (height tb) (word_wrap tb)
          [empty_paragraph].

(** [text_frame.add_paragraph()] followed by the assignments to the
    new paragraph. *)
Definition add_paragraph (tb : textbox) (p : paragraph) : textbox :=
  TextBox (left tb) (top tb) (width tb) (height tb) (word_wrap tb)
          (paragraphs tb ++ [p]).

Definition set_word_wrap (tb : textbox) (b : bool) : textbox :=
  TextBox (left tb) (top tb) (width tb) (height tb) (Some b)
          (paragraphs tb).

Definition add_shape (s : slide) (tb : textbox) : slide :=
  PSlide (background s) (shapes s ++ [tb]).

(** *** The assignment to [paragraph.text]

    The library cuts the text at every line feed and vertical tab into
    runs with a line break between them, writes every other control
    character of a run below U+0020, the tab apart, as "_xHHHH_", and
    hands the run to the XML tree, which refuses a surrogate, U+FFFE and
    U+FFFF with an exception.  Read back, a line break is a vertical
    tab. *)
Definition VT : char := 11.

(** A character that the XML tree refuses in a text node. *)
Definition xml_refused (c : char) : bool :=
  ((55296 <=? c) && (c <=? 57343)) || (c =? 65534) || (c =? 65535).

(** One digit of ["%X"]. *)
Definition hex_digit (n : N) : char := if n <? 10 then 48 + n else 55 + n.

(** ["_x%04X_" % ord(c)] for a character below U+0100. *)
Definition escape_control (c : char) : str :=
  py "_x00" ++ [hex_digit (c / 16); hex_digit (c mod 16)] ++ py "_".

(** What the paragraph holds for one character of the text assigned. *)
Definition stored_char (c : char) : str :=
  if (c =? LF) || (c =? VT) then [VT]
  else if (c <=? 8) || ((11 <=? c) && (c <=? 31)) then escape_control c
  else [c].

(** The text that [paragraph.text] reads after the assignment of [s]. *)
Definition stored_text (s : str) : str := flat_map stored_char s.

(** [paragraph.text = s]: the text now held, [None] when the assignment
    raises. *)
Definition set_text (s : str) : option str :=
  if existsb xml_refused s then None else Some (stored_text s).

End Pptx.
Import Pptx.

(** [apply_template_style]: fills the background of the slide and returns
    the text color. *)
Definition apply_template_style (s : slide) (template : str)
  : option (slide * rgb) :=
  colors ← lookup_colors template;
  Some (PSlide (Some (bg colors)) (shapes s), text colors).

Definition OUTPUT_DIR : str := py "generated".

(** [os.path.join] of two components on a POSIX system. *)
Definition path_join (a b : str) : str :=
  match b with
  | 47 :: _ => b
  | _ => match last a with
         | None => b
         | Some 47 => a ++ b
         | Some _ => a ++ 47 :: b
         end
  end.

(** The files written so far, by path. *)
Abbreviation files := (gmap str presentation).

(** The paragraph of the title after the assignments to it; [None] when
    the assignment of the text raises. *)
Definition title_paragraph (text_color : rgb) (t : str) : option paragraph :=
  txt ← set_text t;
  Some (Paragraph txt (Some (Pt 40)) (Some true) (Some text_color)
                  (Some PP_ALIGN_CENTER) 0 None).

(** The paragraph of one point, likewise. *)
Definition bullet_paragraph (text_color : rgb) (bullet : str)
  : option paragraph :=
  txt ← set_text (ARROW :: SPACE :: strip bullet);
  Some (Paragraph txt (Some (Pt 24)) None (Some text_color) None 0
                  (Some (Pt 10))).

(** The body of the loop over [slides_data]; [None] when an assignment
    of a text raises. *)
Definition build_slide (template : str) (slide_data : slide_record)
  : option slide :=
  '(sl, text_color) ← apply_template_style blank_slide template;
  let title_box := add_textbox Inches_0_5 Inches_0_8 Inches_12_3 Inches_1_2 in
  let title_box := clear title_box in
  p ← title_paragraph text_color (title slide_data);
  let title_box := add_paragraph title_box p in
  let sl := add_shape sl title_box in
  let content_box := add_textbox Inches_1_5 Inches_2_3 Inches_10_3 Inches_4 in
  let content_box := set_word_wrap content_box true in
  content_box ←
    fold_left (fun acc bullet =>
                 box ← acc;
                 bp ← bullet_paragraph text_color bullet;
                 Some (add_paragraph box bp))
              (points slide_data) (Some content_box);
  Some (add_shape sl content_box).

(** [create_ppt_from_slides]; [uuid] is the text of the identifier that
    [uuid.uuid4()] draws, [fs] the files before the call.  The result is
    the file name and the files after [prs.save]; it is [None] when the
    loop raises, which is before anything is saved. *)
Definition create_ppt_from_slides (slides_data : list slide_record)
    (template : str) (uuid : str) (fs : files) : option (str * files) :=
  let prs := Prs Inches_13_33 Inches_7_5 (slides Presentation) in
  prs ← fold_left (fun acc slide_data =>
                     prs ← acc;
                     sl ← build_slide template slide_data;
                     Some (Prs (slide_width prs) (slide_height prs)
                               (slides prs ++ [sl])))
                  slides_data (Some prs);
  let filename := uuid ++ py ".pptx" in
  let filepath := path_join OUTPUT_DIR filename in
  Some (filename, <[filepath := prs]> fs).

(** ** The request handlers *)

Inductive json : Type :=
| JBool (b : bool)
| JString (s : str)
| JInt (z : Z).

(** A response: the status code and the members of the JSON object. *)
Record response : Type := Response { status : Z; body : list (str * json) }.

(** The JSON body of a request; a member that is absent is [None]. *)
Record request_data : Type := Request {
  text_field : option str;
  topic_field : option str;
  template_field : option str;
  slide_count_field : option Z
}.

Definition generated_url (filename : str) : str := py "/generated/" ++ filename.

(** [generate_ppt_api]; [None] is an exception that leaves the handler. *)
Definition generate_ppt_api (data : request_data) (uuid : str) (fs : files)
  : option (response * files) :=
  let topic_text := strip (default [] (text_field data)) in
  let template := default (py "modern") (template_field data) in
  if negb (truthy topic_text)
  then Some (Response 400 [(py "success", JBool false);
                           (py "error", JString (py "Empty topic"))], fs)
  else
    let slides_data := parse_slides topic_text 6 in
    match slides_data with
    | [] => Some (Response 400
                    [(py "success", JBool false);
                     (py "error", JString (py "No valid slides found"))], fs)
    | _ :: _ =>
        '(filename, fs') ← create_ppt_from_slides slides_data template uuid fs;
        Some (Response 200
                [(py "success", JBool true);
                 (py "file_path", JString (generated_url filename));
                 (py "download_url", JString (generated_url filename))], fs')
    end.

(** [generate_ppt_content]: the prompt is a fixed text around the topic and
    the slide count, so the external model is a function of these two;
    its reply is [None] when the call raises. *)
Definition generate_ppt_content (model : str -> Z -> option str)
    (topic : str) (slide_count : Z) : option str :=
  model topic slide_count.

Definition generate_auto_ppt_api (model : str -> Z -> option str)
    (data : request_data) (uuid : str) (fs : files)
  : option (response * files) :=
  let topic := strip (default [] (topic_field data)) in
  let template := default (py "modern") (template_field data) in
  let slide_count := default 6%Z (slide_count_field data) in
  if negb (truthy topic)
  then Some (Response 400 [(py "success", JBool false);
                           (py "error", JString (py "No topic provided"))], fs)
  else
    match generate_ppt_content model topic slide_count with
    | None | Some [] =>
        Some (Response 500
                [(py "success", JBool false);
                 (py "error", JString (py "AI generation failed"))], fs)
    | Some ai_text =>
        let slides_data := parse_slides ai_text slide_count in
        match slides_data with
        | [] => Some (Response 400
                        [(py "success", JBool false);
                         (py "error",
                          JString (py "AI did not return valid slides"))], fs)
        | _ :: _ =>
            '(filename, fs') ←
              create_ppt_from_slides slides_data template uuid fs;
            Some (Response 200
                    [(py "success", JBool true);
                     (py "file_path", JString (generated_url filename));
                     (py "download_url", JString (generated_url filename));
                     (py "slides_generated",
                      JInt (Z.of_nat (length slides_data)))], fs')
        end
    end.

(** ** Vocabulary of the properties *)

(** The pattern [Slide\s*\d+\s*:] matches at the start of [s]. *)
Definition marker_at (s : str) : bool :=
  match match_at marker s with Some _ => true | None => false end.

(** A marker starts somewhere in [text]. *)
Fixpoint has_marker (text : str) : bool :=
  marker_at text ||
  match text with [] => false | _ :: text' => has_marker text' end.

(** The number of positions of [text] at which a marker starts. *)
Fixpoint count_markers (text : str) : nat :=
  ((if marker_at text then 1 else 0) +
   match text with [] => 0 | _ :: text' => count_markers text' end)%nat.

(** A marker starts inside [pre] when [pre] is followed by [suf]. *)
Fixpoint marker_before (pre suf : str) : bool :=
  match pre with
  | [] => false
  | _ :: pre' => marker_at (pre ++ suf) || marker_before pre' suf
  end.

Fixpoint starts_with (w s : str) : bool :=
  match w, s with
  | [], _ => true
  | c :: w', x :: s' => (x =? c) && starts_with w' s'
  | _ :: _, [] => false
  end.

(** [w in text] *)
Fixpoint occurs (w text : str) : bool :=
  starts_with w text ||
  match text with [] => false | _ :: text' => occurs w text' end.

(** *** The pattern read as a scanner

    What the matcher computes for [slide_pattern], written without
    backtracking; [slide_pattern_scan] below proves the two equal. *)

(** The length of the longest prefix of [s] inside the class. *)
Fixpoint run (cls : char -> bool) (s : str) : nat :=
  match s with
  | c :: s' => if cls c then S (run cls s') else O
  | [] => O
  end.

(** The text after a marker that starts [s]. *)
Definition marker_end (s : str) : option str :=
  if starts_with (py "Slide") s then
    let s1 := lstrip_by is_space (drop 5 s) in
    if (1 <=? run is_digit s1)%nat then
      match lstrip_by is_space (lstrip_by is_digit s1) with
      | c :: s4 => if c =? COLON then Some s4 else None
      | [] => None
      end
    else None
  else None.

(** The lookahead [(?=Slide\s*\d+\s*:|$)]. *)
Definition segment_stop (s : str) : bool :=
  match marker_end s with Some _ => true | None => at_end s end.

(** The first position of [s] at which the lookahead holds. *)
Fixpoint segment_end (s : str) : str :=
  if segment_stop s then s
  else match s with
       | _ :: s' => segment_end s'
       | [] => []
       end.

Definition scan_slide (s : str) : option mstate :=
  match marker_end s with
  | Some s4 =>
      let b := lstrip_by is_space s4 in
      let e := segment_end b in
      Some (MState e (Some (take (length b - length e) b)))
  | None => None
  end.

(** What one segment contributes to the result. *)
Definition segment_record (s : str) : list slide_record :=
  match segment_lines s with
  | [] => []
  | l :: ls => [Slide l ls]
  end.

Definition theme_names : list str :=
  [py "modern"; py "minimal"; py "corporate"; py "creative"; py "dark"].

Definition modern_theme : theme :=
  Theme (RGBColor 25 25 112) (RGBColor 255 255 255).

Definition is_glyph (c : char) : bool := existsb (N.eqb c) glyphs.

(** A line survives the filter of [segment_lines]. *)
Definition nonblank (l : str) : Prop := truthy (strip l) = true.

(** *** The line rule as the specification words it

    Second definition, from the words of the specification and not from
    the code: a line loses white space at both ends and bullet glyphs
    (hyphen, bullet dot) at its front only, blank lines are discarded
    afterwards, the first line left is the title. *)
Definition is_bullet_glyph (c : char) : bool := (c =? HYPHEN) || (c =? BULLET).

Definition spec_clean_line (l : str) : str :=
  strip (lstrip_by is_bullet_glyph (strip l)).

Definition spec_segment_record (s : str) : list slide_record :=
  match filter (fun l => truthy l = true) (map spec_clean_line (split LF s)) with
  | [] => []
  | l :: ls => [Slide l ls]
  end.

Definition spec_parse_slides (text : str) (max_slides : Z)
  : list slide_record :=
  slice_to (flat_map spec_segment_record (findall slide_pattern text))
           max_slides.

(** *** The line rule in the order of the specification

    Third definition: the order of the specification, every line is
    stripped and the blank lines are discarded afterwards, with the strip
    that the code applies, to the segment and to a line. *)
Definition blank (l : str) : bool := negb (truthy (strip l)).

Definition stripped_lines (seg : str) : list str :=
  filter (fun l => blank l = false)
         (map (strip_chars glyphs) (split LF (strip seg))).

Definition stripped_record (seg : str) : list slide_record :=
  match stripped_lines seg with
  | [] => []
  | l :: ls => [Slide l ls]
  end.

(** Every line of the segment that is not blank is not blank either
    once it is stripped: no line is made of hyphens, bullet dots and
    white space only, with a hyphen or a bullet dot. *)
Definition lines_keep_text (seg : str) : bool :=
  forallb (fun l => blank l || negb (blank (strip_chars glyphs l)))
          (split LF (strip seg)).

(** *** The slide that [build_slide] leaves behind *)

(** No assignment of a text of the record raises. *)
Definition writable (slide_data : slide_record) : bool :=
  negb (existsb xml_refused (title slide_data)) &&
  forallb (fun bullet => negb (existsb xml_refused (strip bullet)))
          (points slide_data).

Definition rendered_title (text_color : rgb) (t : str) : paragraph :=
  Paragraph (stored_text t) (Some (Pt 40)) (Some true) (Some text_color)
            (Some PP_ALIGN_CENTER) 0 None.

Definition rendered_bullet (text_color : rgb) (bullet : str) : paragraph :=
  Paragraph (ARROW :: SPACE :: stored_text (strip bullet)) (Some (Pt 24)) None
            (Some text_color) None 0 (Some (Pt 10)).

Definition rendered_slide (colors : theme) (slide_data : slide_record)
  : slide :=
  PSlide (Some (bg colors))
    [TextBox Inches_0_5 Inches_0_8 Inches_12_3 Inches_1_2 (Some false)
       [empty_paragraph; rendered_title (text colors) (title slide_data)];
     TextBox Inches_1_5 Inches_2_3 Inches_10_3 Inches_4 (Some true)
       (empty_paragraph ::
          map (rendered_bullet (text colors)) (points slide_data))].

(** A character that the library stores as it is: the tab and what is
    not below U+0020. *)
Definition plain (c : char) : bool := (c =? TAB) || (32 <=? c).

(** The file that the builder leaves for records it can write. *)
Definition rendered_deck (colors : theme) (slides_data : list slide_record)
  : presentation :=
  Prs Inches_13_33 Inches_7_5 (map (rendered_slide colors) slides_data).

(** The texts of the bullet lines of a slide: the paragraphs added to
    its second text box. *)
Definition bullet_lines (s : slide) : list str :=
  match shapes s with
  | [_; content_box] => map p_text (tail (paragraphs content_box))
  | _ => []
  end.

(** The document that a call leaves in an empty output directory. *)
Definition saved_deck (slides_data : list slide_record) (template uuid : str)
  : option presentation :=
  '(filename, fs) ← create_ppt_from_slides slides_data template uuid ∅;
  fs !! path_join OUTPUT_DIR filename.

(** A text with one record, whose title ends in U+FFFF. *)
Definition refused_text : str := py "Slide 1: A" ++ [65535].

(** The carriage return. *)
Definition CR : char := 13.

(** A reply of the external model with five segments. *)
Definition five_segments : str :=
  nl (py "Slide 1: One") (nl (py "- a")
  (nl (py "Slide 2: Two") (nl (py "- b")
  (nl (py "Slide 3: Three") (nl (py "- c")
  (nl (py "Slide 4: Four") (nl (py "- d")
  (nl (py "Slide 5: Five") (py "- e"))))))))).

(** A color of the document: three components of one byte each. *)
Definition rgb_valid (c : rgb) : bool :=
  (red c <=? 255) && (green c <=? 255) && (blue c <=? 255).

(** ** Vocabulary of the further properties *)

(** All the records of a text: the cut is as large as the number of
    markers, so nothing is cut. *)
Definition parse_all (text : str) : list slide_record :=
  parse_slides text (Z.of_nat (count_markers text)).

(** The capital letter that every marker starts with. *)
Definition LETTER_S : char := 83.
(** The text of the title of a slide: the paragraph added last to its
    first text box. *)
Definition title_line (s : slide) : option str :=
  match shapes s with
  | [title_box; _] => p_text <$> last (paragraphs title_box)
  | _ => None
  end.

(** The request with another template name. *)
Definition with_template (data : request_data) (template : option str)
  : request_data :=
  Request (text_field data) (topic_field data) template
          (slide_count_field data).
(** *** The outline format

    The format that the prompt of [generate_ppt_content] asks for: a line
    "Slide N: title" and a line "- point" for every point, each line
    behind the same run of spaces. *)

(** ["\n".join(lines)] *)
Fixpoint join_lines (lines : list str) : str :=
  match lines with
  | [] => []
  | l :: ls =>
      match ls with
      | [] => l
      | _ :: _ => l ++ LF :: join_lines ls
      end
  end.

Definition bullet_line (indent point : str) : str :=
  indent ++ py "- " ++ point.

(** The lines of one slide after "Slide N: ". *)
Definition outline_lines (indent : str) (r : slide_record) : list str :=
  title r :: map (bullet_line indent) (points r).

(** One slide; [number] is the text of its number. *)
Definition outline_slide (indent : str) (item : str * slide_record) : str :=
  indent ++ py "Slide " ++ fst item ++ py ": " ++
  join_lines (outline_lines indent (snd item)).

Definition outline (indent : str) (items : list (str * slide_record)) : str :=
  join_lines (map (outline_slide indent) items).

(** A title or point that the outline format can carry: not empty, on one
    line, without the word "Slide", and with a first and a last character
    that are neither white space nor a hyphen nor a bullet dot. *)
Definition edge_ok (c : option char) : bool :=
  match c with
  | Some c => negb (is_glyph c || is_space c)
  | None => false
  end.

Definition solid (x : str) : bool :=
  negb (existsb (N.eqb LF) x) && negb (occurs (py "Slide") x) &&
  edge_ok (head x) && edge_ok (last x).

Definition item_ok (item : str * slide_record) : bool :=
  truthy (fst item) && forallb is_digit (fst item) &&
  solid (title (snd item)) && forallb solid (points (snd item)).
(** *** The prompt of [generate_ppt_content] *)

(** [str(n)] for a Python int: the decimal digits, behind a minus sign
    when the number is negative. *)
Definition str_of_int (n : Z) : str := py (NilZero.string_of_int (Z.to_int n)).

Definition QUOTE : char := 34.

(** The f-string of [generate_ppt_content], line by line as the source
    has it, each line behind four spaces. *)
Definition prompt_text (topic : str) (slide_count : Z) : str :=
  [LF] ++
  py "    Create a PowerPoint presentation outline on the topic: " ++
  [QUOTE] ++ topic ++ [QUOTE] ++ py "." ++ [LF] ++
  py "    Include exactly " ++ str_of_int slide_count ++ py " slides." ++ [LF] ++
  py "    Format exactly like this:" ++ [LF] ++
  [LF] ++
  py "    Slide 1: Title of the slide" ++ [LF] ++
  py "    - Bullet point 1" ++ [LF] ++
  py "    - Bullet point 2" ++ [LF] ++
  py "    - Bullet point 3" ++ [LF] ++
  py "    ".

(** [generate_ppt_content] with the prompt written out:
    [generate_content] is the call of the external model, [None] when it
    raises. *)
Definition generate_ppt_content_prompted (generate_content : str -> option str)
    (topic : str) (slide_count : Z) : option str :=
  generate_content (prompt_text topic slide_count).

(** The slide that the prompt shows. *)
Definition prompt_example : slide_record :=
  Slide (py "Title of the slide")
        [py "Bullet point 1"; py "Bullet point 2"; py "Bullet point 3"].

(** The prompt up to its example. *)
Definition prompt_head (topic : str) (slide_count : Z) : str :=
  [LF] ++
  py "    Create a PowerPoint presentation outline on the topic: " ++
  [QUOTE] ++ topic ++ [QUOTE] ++ py "." ++ [LF] ++
  py "    Include exactly " ++ str_of_int slide_count ++ py " slides." ++ [LF] ++
  py "    Format exactly like this:" ++ [LF] ++
  [LF].

(** ** Character classes *)

Lemma is_space_elem c : is_space c = true -> In c whitespace.
Proof.
  unfold is_space. intros H. apply existsb_exists in H as (x & Hx & E).
  apply N.eqb_eq in E. now subst.
Qed.

Lemma space_not_digit c : is_space c = true -> is_digit c = false.
Proof.
  intros H. apply is_space_elem in H. unfold whitespace in H. simpl in H.
  repeat (destruct H as [<- | H]; [vm_compute; reflexivity |]).
  contradiction.
Qed.

Lemma digit_not_space c : is_digit c = true -> is_space c = false.
Proof.
  intros H. destruct (is_space c) eqn:E; [| reflexivity].
  apply space_not_digit in E. congruence.
Qed.

Lemma space_not_colon c : is_space c = true -> (c =? COLON) = false.
Proof.
  intros H. apply N.eqb_neq. intros ->. vm_compute in H. discriminate.
Qed.

Lemma digit_not_colon c : is_digit c = true -> (c =? COLON) = false.
Proof.
  intros H. apply N.eqb_neq. intros ->. vm_compute in H. discriminate.
Qed.

(** ** The matcher *)

Section Matcher.

Implicit Types (r : regex) (k : mstate -> option mstate) (st : mstate).

(** The continuation runs on a position of the text at or after the
    current one. *)
Lemma repeat_max_suffix {A} cls (k : str -> option A) lo s x :
  repeat_max cls k lo s = Some x ->
  exists s', k s' = Some x /\ s' `suffix_of` s.
Proof.
  revert lo. induction s as [| c s IH]; intros lo; simpl.
  - destruct lo; [| discriminate]. intros H. now exists [].
  - assert (Hstop : match lo with O => k (c :: s) | S _ => None end = Some x ->
                    exists s', k s' = Some x /\ s' `suffix_of` c :: s).
    { destruct lo; [| discriminate]. intros H. now exists (c :: s). }
    destruct (cls c); [| exact Hstop].
    destruct (repeat_max cls k (pred lo) s) eqn:E; [| exact Hstop].
    intros [= ->]. destruct (IH _ E) as (s' & Hs' & Hsuf).
    exists s'. split; [exact Hs' | now apply suffix_cons_r].
Qed.

Lemma repeat_min_suffix {A} cls (k : str -> option A) lo s x :
  repeat_min cls k lo s = Some x ->
  exists s', k s' = Some x /\ s' `suffix_of` s.
Proof.
  revert lo. induction s as [| c s IH]; intros lo; simpl.
  - destruct lo; [| discriminate].
    destruct (k []) eqn:E; [| discriminate]. intros [= ->]. now exists [].
  - assert (Hmore : (if cls c then repeat_min cls k (pred lo) s else None) = Some x ->
                    exists s', k s' = Some x /\ s' `suffix_of` c :: s).
    { destruct (cls c); [| discriminate]. intros H.
      destruct (IH _ H) as (s' & Hs' & Hsuf).
      exists s'. split; [exact Hs' | now apply suffix_cons_r]. }
    destruct lo; [| exact Hmore].
    destruct (k (c :: s)) eqn:E; [| exact Hmore].
    intros [= ->]. now exists (c :: s).
Qed.

Lemma sre_match_suffix r : forall k st x,
  sre_match r k st = Some x ->
  exists st', k st' = Some x /\ rest st' `suffix_of` rest st.
Proof.
  induction r as [c | cls | lo cls | lo cls | r1 IH1 r2 IH2 | r1 IH1 r2 IH2
                 | r1 IH1 | r1 IH1 |]; intros k st x; simpl.
  - destruct (rest st) as [| y s'] eqn:E; [discriminate |].
    destruct (y =? c); [| discriminate]. intros H.
    exists (move st s'). split; [exact H | simpl; now apply suffix_cons_r].
  - destruct (rest st) as [| y s'] eqn:E; [discriminate |].
    destruct (cls y); [| discriminate]. intros H.
    exists (move st s'). split; [exact H | simpl; now apply suffix_cons_r].
  - intros H. apply repeat_max_suffix in H as (s' & H & Hsuf).
    now exists (move st s').
  - intros H. apply repeat_min_suffix in H as (s' & H & Hsuf).
    now exists (move st s').
  - intros H. apply IH1 in H as (st1 & H & Hsuf1).
    apply IH2 in H as (st2 & H & Hsuf2).
    exists st2. split; [exact H | now transitivity (rest st1)].
  - destruct (sre_match r1 k st) eqn:E.
    + intros [= ->]. now apply IH1.
    + apply IH2.
  - intros H. apply IH1 in H as (st1 & H & Hsuf1).
    now exists (close_group st st1).
  - destruct (sre_match r1 Some st) as [st1 |]; [| discriminate].
    intros H. now exists (MState (rest st) (group1 st1)).
  - destruct (at_end (rest st)); [| discriminate]. intros H. now exists st.
Qed.

End Matcher.

(** ** The slide pattern has one way to match *)

Section Scanner.

Context {A : Type}.
Implicit Types (k : str -> option A) (cls : char -> bool).

Lemma lstrip_by_run cls s : lstrip_by cls s = drop (run cls s) s.
Proof.
  induction s as [| c s IH]; simpl; [reflexivity |].
  destruct (cls c); [exact IH | reflexivity].
Qed.

(** When the rest of the pattern cannot start with a character of the
    class, a greedy repeat has only its longest run to offer. *)
Lemma repeat_max_longest cls k lo s :
  (forall c s', cls c = true -> k (c :: s') = None) ->
  repeat_max cls k lo s =
    if (lo <=? run cls s)%nat then k (lstrip_by cls s) else None.
Proof.
  intros Hk. revert lo. induction s as [| c s IH]; intros lo; simpl.
  - destruct lo; reflexivity.
  - destruct (cls c) eqn:Ec.
    + rewrite IH. destruct lo as [| lo]; simpl.
      * destruct (k (lstrip_by cls s)); [reflexivity | now apply Hk].
      * destruct (lo <=? run cls s)%nat; [| reflexivity].
        destruct (k (lstrip_by cls s)); reflexivity.
    + destruct lo; reflexivity.
Qed.

Lemma repeat_max_longest0 cls k s :
  (forall c s', cls c = true -> k (c :: s') = None) ->
  repeat_max cls k 0 s = k (lstrip_by cls s).
Proof. intros Hk. now rewrite repeat_max_longest. Qed.

(** When the rest of the pattern matches after the longest run, that is
    the match. *)
Lemma repeat_max_first cls k s x :
  k (lstrip_by cls s) = Some x -> repeat_max cls k 0 s = Some x.
Proof.
  induction s as [| c s IH]; simpl; [trivial |].
  destruct (cls c); [| trivial]. intros H. now rewrite (IH H).
Qed.

(** A lazy repeat of [.] stops at the first position where the rest of
    the pattern matches. *)
Lemma repeat_min_any k (stop : str -> bool) (f : str -> A) s :
  stop [] = true ->
  (forall s', k s' = if stop s' then Some (f s') else None) ->
  repeat_min any k 0 s =
    Some (f ((fix go s := if stop s then s
                          else match s with _ :: s' => go s' | [] => [] end) s)).
Proof.
  intros Hnil Hk. induction s as [| c s IH]; simpl.
  - now rewrite Hk, Hnil.
  - rewrite Hk. destruct (stop (c :: s)); [reflexivity | exact IH].
Qed.

End Scanner.

Lemma sre_match_cat r1 r2 k st :
  sre_match (Cat r1 r2) k st = sre_match r1 (sre_match r2 k) st.
Proof. reflexivity. Qed.

Lemma sre_match_max lo cls k st :
  sre_match (MaxRepeat lo cls) k st =
    repeat_max cls (fun s' => k (move st s')) lo (rest st).
Proof. reflexivity. Qed.

Lemma sre_match_min lo cls k st :
  sre_match (MinRepeat lo cls) k st =
    repeat_min cls (fun s' => k (move st s')) lo (rest st).
Proof. reflexivity. Qed.

Lemma sre_match_sub r k st :
  sre_match (Subpattern r) k st =
    sre_match r (fun st' => k (close_group st st')) st.
Proof. reflexivity. Qed.

Lemma word_match w k st :
  w <> [] ->
  sre_match (word w) k st =
    if starts_with w (rest st) then k (move st (drop (length w) (rest st)))
    else None.
Proof.
  intros Hw. revert st. induction w as [| c w IH]; intros st; [congruence |].
  destruct w as [| c' w].
  - simpl. destruct (rest st) as [| x s']; [reflexivity |].
    destruct (x =? c); simpl; [now rewrite drop_0 | reflexivity].
  - change (word (c :: c' :: w)) with (Cat (Literal c) (word (c' :: w))).
    cbn [sre_match]. destruct (rest st) as [| x s'] eqn:E; [reflexivity |].
    cbn [starts_with]. destruct (x =? c); [| reflexivity].
    rewrite IH by discriminate. reflexivity.
Qed.

(** The marker matches in at most one way, whatever follows it. *)
Lemma marker_scan k st :
  sre_match marker k st =
    match marker_end (rest st) with
    | Some s4 => k (move st s4)
    | None => None
    end.
Proof.
  unfold marker, marker_end. cbn [sre_match].
  rewrite word_match by discriminate.
  destruct (starts_with (py "Slide") (rest st)); [| reflexivity].
  change (length (py "Slide")) with 5%nat. cbn [rest move].
  set (s0 := drop 5 (rest st)).
  rewrite repeat_max_longest0.
  2:{ intros c s' Hc. cbn [repeat_max]. now rewrite (space_not_digit c Hc). }
  rewrite repeat_max_longest.
  2:{ intros c s' Hc. cbn [repeat_max].
      rewrite (digit_not_space c Hc). cbn [rest move].
      now rewrite (digit_not_colon c Hc). }
  destruct (1 <=? run is_digit (lstrip_by is_space s0))%nat; [| reflexivity].
  rewrite repeat_max_longest0.
  2:{ intros c s' Hc. cbn [rest move]. now rewrite (space_not_colon c Hc). }
  cbn [rest move].
  destruct (lstrip_by is_space (lstrip_by is_digit (lstrip_by is_space s0)))
    as [| c s4]; [reflexivity |].
  destruct (c =? COLON); reflexivity.
Qed.

Lemma marker_at_end s :
  marker_at s = match marker_end s with Some _ => true | None => false end.
Proof.
  unfold marker_at, match_at. rewrite marker_scan. simpl.
  destruct (marker_end s); reflexivity.
Qed.

Lemma lookahead_scan st :
  sre_match (Assert (Branch marker AtEnd)) Some st =
    if segment_stop (rest st) then Some st else None.
Proof.
  unfold segment_stop. cbn [sre_match]. rewrite marker_scan.
  destruct st as [s g]. cbn [rest group1 move].
  destruct (marker_end s); [reflexivity |].
  destruct (at_end s); reflexivity.
Qed.

(** The whole pattern at one position. *)
Lemma slide_pattern_scan s : match_at slide_pattern s = scan_slide s.
Proof.
  unfold match_at, slide_pattern, scan_slide.
  rewrite sre_match_cat, marker_scan. cbn [rest start move group1].
  destruct (marker_end s) as [s4 |]; [| reflexivity].
  rewrite sre_match_cat, sre_match_max. cbn [rest].
  apply repeat_max_first.
  rewrite sre_match_cat, sre_match_sub, sre_match_min. cbn [rest move].
  set (b := lstrip_by is_space s4).
  apply (repeat_min_any _ segment_stop
           (fun e => MState e (Some (take (length b - length e) b)))).
  - reflexivity.
  - intros s'. rewrite lookahead_scan. reflexivity.
Qed.

(** ** Scanning the text *)

Lemma literal_first_shorter c r st x :
  sre_match (Literal c) (sre_match r Some) st = Some x ->
  (length (rest x) < length (rest st))%nat.
Proof.
  cbn [sre_match]. destruct (rest st) as [| y s']; [discriminate |].
  destruct (y =? c); [| discriminate]. intros H.
  apply sre_match_suffix in H as (st1 & [= ->] & Hsuf).
  apply suffix_length in Hsuf. simpl in *. lia.
Qed.

Lemma scan_slide_shorter s st' :
  scan_slide s = Some st' -> (length (rest st') < length s)%nat.
Proof.
  rewrite <- slide_pattern_scan. unfold match_at. intros H.
  apply (literal_first_shorter 83
           (Cat (word (py "lide"))
                (Cat (Cat (MaxRepeat 0 is_space)
                          (Cat (MaxRepeat 1 is_digit)
                               (Cat (MaxRepeat 0 is_space) (Literal COLON))))
                     (Cat (MaxRepeat 0 is_space)
                          (Cat (Subpattern (MinRepeat 0 any))
                               (Assert (Branch marker AtEnd)))))))
    in H.
  exact H.
Qed.

Lemma scan_slide_marker s st' : scan_slide s = Some st' -> marker_at s = true.
Proof.
  rewrite marker_at_end. unfold scan_slide.
  destruct (marker_end s); [reflexivity | discriminate].
Qed.

(** One step of [findall] on the slide pattern. *)
Lemma findall_from_step fuel s :
  findall_from (S fuel) slide_pattern s =
    match scan_slide s with
    | Some st' =>
        default [] (group1 st') :: findall_from fuel slide_pattern (rest st')
    | None =>
        match s with
        | [] => []
        | _ :: s' => findall_from fuel slide_pattern s'
        end
    end.
Proof.
  cbn [findall_from]. rewrite slide_pattern_scan.
  destruct (scan_slide s) as [st' |] eqn:E; [| reflexivity].
  apply scan_slide_shorter in E. apply Nat.ltb_lt in E. now rewrite E.
Qed.

(** The fuel of [findall] is never used up: any larger amount gives the
    same list. *)
Lemma findall_from_fuel fuel : forall fuel' s,
  (length s < fuel)%nat -> (length s < fuel')%nat ->
  findall_from fuel slide_pattern s = findall_from fuel' slide_pattern s.
Proof.
  induction fuel as [| fuel IH]; intros fuel' s H H'; [lia |].
  destruct fuel' as [| fuel']; [lia |].
  rewrite !findall_from_step.
  destruct (scan_slide s) as [st' |] eqn:E.
  - apply scan_slide_shorter in E. f_equal. apply IH; lia.
  - destruct s as [| c s]; [reflexivity |]. simpl in *. apply IH; lia.
Qed.

Lemma findall_unfold s :
  findall slide_pattern s =
    match scan_slide s with
    | Some st' => default [] (group1 st') :: findall slide_pattern (rest st')
    | None =>
        match s with
        | [] => []
        | _ :: s' => findall slide_pattern s'
        end
    end.
Proof.
  unfold findall at 1. rewrite findall_from_step.
  destruct (scan_slide s) as [st' |] eqn:E.
  - apply scan_slide_shorter in E. f_equal. apply findall_from_fuel; lia.
  - destruct s; reflexivity.
Qed.

(** Positions before the first marker contribute nothing. *)
Lemma findall_skip pre suf :
  marker_before pre suf = false ->
  findall slide_pattern (pre ++ suf) = findall slide_pattern suf.
Proof.
  induction pre as [| c pre IH]; [reflexivity |].
  cbn [marker_before]. intros H. apply orb_false_iff in H as [Hm Hb].
  rewrite findall_unfold.
  destruct (scan_slide ((c :: pre) ++ suf)) as [st' |] eqn:E.
  - apply scan_slide_marker in E. congruence.
  - now apply IH.
Qed.

Lemma findall_no_marker text :
  has_marker text = false -> findall slide_pattern text = [].
Proof.
  induction text as [| c text IH]; cbn [has_marker]; intros H;
    apply orb_false_iff in H as [Hm Hb]; rewrite findall_unfold.
  - destruct (scan_slide []) eqn:E; [| reflexivity].
    apply scan_slide_marker in E. congruence.
  - destruct (scan_slide (c :: text)) eqn:E; [| now apply IH].
    apply scan_slide_marker in E. congruence.
Qed.

Lemma count_markers_suffix (s' s : str) :
  s' `suffix_of` s -> (count_markers s' <= count_markers s)%nat.
Proof.
  intros [pre ->]. induction pre as [| c pre IH]; [reflexivity |].
  simpl. lia.
Qed.

(** Every match starts at a marker of its own. *)
Lemma findall_from_count fuel : forall s,
  (length (findall_from fuel slide_pattern s) <= count_markers s)%nat.
Proof.
  induction fuel as [| fuel IH]; intros s; [simpl; lia |].
  rewrite findall_from_step.
  destruct (scan_slide s) as [st' |] eqn:E.
  - pose proof (scan_slide_marker _ _ E) as Hm.
    pose proof (scan_slide_shorter _ _ E) as Hlen.
    assert (Hsuf : rest st' `suffix_of` s).
    { rewrite <- slide_pattern_scan in E.
      apply sre_match_suffix in E as (st1 & [= ->] & Hsuf). exact Hsuf. }
    destruct s as [| c s]; [simpl in Hlen; lia |].
    destruct Hsuf as [[| c' pre] Hpre].
    + simpl in Hpre. rewrite <- Hpre in Hlen. lia.
    + injection Hpre as _ Hpre.
      assert (Hsuf : rest st' `suffix_of` s) by now exists pre.
      specialize (IH (rest st')). apply count_markers_suffix in Hsuf.
      cbn [count_markers length]. rewrite Hm. lia.
  - destruct s as [| c s]; [simpl; lia |].
    specialize (IH s). cbn [count_markers]. lia.
Qed.

(** ** The loop and the slice *)

Lemma parse_loop slides : forall parsed,
  fold_left parse_step slides parsed = parsed ++ flat_map segment_record slides.
Proof.
  induction slides as [| s slides IH]; intros parsed; simpl.
  - now rewrite app_nil_r.
  - rewrite IH. unfold parse_step, segment_record.
    destruct (segment_lines s); [reflexivity |].
    now rewrite <- app_assoc.
Qed.

Lemma parse_slides_eq text m :
  parse_slides text m =
    slice_to (flat_map segment_record (findall slide_pattern text)) m.
Proof. unfold parse_slides. now rewrite parse_loop. Qed.

Lemma segment_records_length slides :
  (length (flat_map segment_record slides) <= length slides)%nat.
Proof.
  induction slides as [| s slides IH]; simpl; [lia |].
  rewrite length_app. unfold segment_record at 1.
  destruct (segment_lines s); simpl; lia.
Qed.

Lemma slice_to_nil {A} m : slice_to (@nil A) m = [].
Proof. unfold slice_to. destruct (m <? 0)%Z; apply take_nil. Qed.

Lemma slice_to_nonneg {A} (l : list A) m :
  (0 <= m)%Z -> slice_to l m = take (Z.to_nat m) l.
Proof.
  intros H. unfold slice_to. apply Z.ltb_ge in H. now rewrite H.
Qed.

Lemma slice_to_sublist {A} (l : list A) m x : x ∈ slice_to l m -> x ∈ l.
Proof.
  unfold slice_to. destruct (m <? 0)%Z; intros H;
    apply elem_of_take in H as (i & H & _); eapply list_elem_of_lookup_2, H.
Qed.

(** ** Stripping *)

Section Strip.

Variable cls : char -> bool.

Lemma run_inside s : forallb cls (take (run cls s) s) = true.
Proof.
  induction s as [| c s IH]; simpl; [reflexivity |].
  destruct (cls c) eqn:E; simpl; [now rewrite E | reflexivity].
Qed.

Lemma lstrip_by_decompose s : s = take (run cls s) s ++ lstrip_by cls s.
Proof. rewrite lstrip_by_run. symmetry. apply take_drop. Qed.

Lemma lstrip_by_head s c s' : lstrip_by cls s = c :: s' -> cls c = false.
Proof.
  induction s as [| x s IH]; simpl; [discriminate |].
  destruct (cls x) eqn:E; [exact IH | congruence].
Qed.

Lemma lstrip_by_inside a b :
  forallb cls a = true -> lstrip_by cls (a ++ b) = lstrip_by cls b.
Proof.
  induction a as [| x a IH]; simpl; [reflexivity |].
  intros H. apply andb_true_iff in H as [-> H]. now apply IH.
Qed.

Lemma last_rev (l : str) : last (rev l) = head l.
Proof.
  destruct l as [| x l]; [reflexivity |]. simpl. apply last_snoc.
Qed.

Lemma forallb_rev (l : str) : forallb cls (rev l) = forallb cls l.
Proof.
  induction l as [| x l IH]; simpl; [reflexivity |].
  rewrite forallb_app, IH. simpl. rewrite andb_true_r. apply andb_comm.
Qed.

(** [rstrip] removes a suffix of characters of the class. *)
Lemma rstrip_by_decompose s :
  exists post, s = rstrip_by cls s ++ post /\ forallb cls post = true.
Proof.
  unfold rstrip_by. exists (rev (take (run cls (rev s)) (rev s))). split.
  - rewrite <- rev_app_distr, <- lstrip_by_decompose. symmetry.
    apply rev_involutive.
  - rewrite forallb_rev. apply run_inside.
Qed.

Lemma rstrip_by_last s c : last (rstrip_by cls s) = Some c -> cls c = false.
Proof.
  unfold rstrip_by. rewrite last_rev.
  destruct (lstrip_by cls (rev s)) as [| x t] eqn:E; [discriminate |].
  intros [= ->]. eapply lstrip_by_head, E.
Qed.

(** [strip] removes characters of the class at both ends, as many as
    there are, and nothing else. *)
Lemma strip_by_decompose s :
  exists pre post,
    s = pre ++ strip_by cls s ++ post /\
    forallb cls pre = true /\ forallb cls post = true.
Proof.
  unfold strip_by.
  destruct (rstrip_by_decompose (lstrip_by cls s)) as (post & E & Hpost).
  exists (take (run cls s) s), post. split; [| split].
  - rewrite <- E. apply lstrip_by_decompose.
  - apply run_inside.
  - exact Hpost.
Qed.

Lemma strip_by_last s c : last (strip_by cls s) = Some c -> cls c = false.
Proof. apply rstrip_by_last. Qed.

Lemma strip_by_head s c : head (strip_by cls s) = Some c -> cls c = false.
Proof.
  unfold strip_by.
  destruct (rstrip_by_decompose (lstrip_by cls s)) as (post & E & _).
  destruct (rstrip_by cls (lstrip_by cls s)) as [| x t]; [discriminate |].
  intros [= ->]. eapply lstrip_by_head. exact E.
Qed.

End Strip.

Lemma starts_with_app w t : starts_with w (w ++ t) = true.
Proof.
  induction w as [| c w IH]; simpl; [reflexivity |].
  now rewrite N.eqb_refl.
Qed.

Lemma starts_with_drop w : forall s,
  starts_with w s = true -> s = w ++ drop (length w) s.
Proof.
  induction w as [| c w IH]; intros s; simpl; [reflexivity |].
  destruct s as [| x s]; [discriminate |].
  intros H. apply andb_true_iff in H as [Hx H].
  apply N.eqb_eq in Hx. subst x. simpl. f_equal. now apply IH.
Qed.

Lemma occurs_false_starts w : forall text pre suf,
  occurs w text = false -> text <> pre ++ w ++ suf.
Proof.
  intros text pre. revert text.
  induction pre as [| c pre IH]; intros text suf H ->.
  - destruct (w ++ suf) eqn:E; simpl in H; apply orb_false_iff in H as [H _];
      rewrite <- E, starts_with_app in H; discriminate.
  - simpl in H. apply orb_false_iff in H as [_ H]. now apply (IH _ suf) in H.
Qed.

(** ** The marker *)

(** The marker and the text that follows it. *)
Lemma marker_end_shape s s4 :
  marker_end s = Some s4 <->
  exists w1 ds w2,
    s = py "Slide" ++ w1 ++ ds ++ w2 ++ COLON :: s4 /\
    forallb is_space w1 = true /\
    ds <> [] /\ forallb is_digit ds = true /\
    forallb is_space w2 = true.
Proof.
  unfold marker_end. split.
  - destruct (starts_with (py "Slide") s) eqn:Hw; [| discriminate].
    apply starts_with_drop in Hw. change (length (py "Slide")) with 5%nat in Hw.
    set (s0 := drop 5 s) in *.
    set (s1 := lstrip_by is_space s0).
    destruct (1 <=? run is_digit s1)%nat eqn:Hd; [| discriminate].
    set (s2 := lstrip_by is_digit s1).
    destruct (lstrip_by is_space s2) as [| c t] eqn:E3; [discriminate |].
    destruct (c =? COLON) eqn:Ec; [| discriminate]. intros [= ->].
    apply N.eqb_eq in Ec. subst c.
    exists (take (run is_space s0) s0), (take (run is_digit s1) s1),
           (take (run is_space s2) s2).
    split; [| split; [| split; [| split]]].
    + rewrite <- E3, <- (lstrip_by_decompose is_space s2).
      unfold s2. rewrite <- (lstrip_by_decompose is_digit s1).
      unfold s1. rewrite <- (lstrip_by_decompose is_space s0). exact Hw.
    + apply run_inside.
    + apply Nat.leb_le in Hd. intros E. apply (f_equal length) in E.
      rewrite length_take in E. simpl in E.
      assert (run is_digit s1 <= length s1)%nat; [| lia].
      clear. induction s1 as [| x l IH]; simpl; [lia |].
      destruct (is_digit x); simpl; lia.
    + apply run_inside.
    + apply run_inside.
  - intros (w1 & ds & w2 & -> & H1 & Hne & Hds & H2).
    rewrite starts_with_app.
    change 5%nat with (length (py "Slide")). rewrite drop_app_length.
    rewrite (lstrip_by_inside _ _ _ H1).
    destruct ds as [| d ds]; [congruence |].
    simpl in Hds. apply andb_true_iff in Hds as [Hd Hds].
    cbn [app lstrip_by]. rewrite (digit_not_space _ Hd).
    cbn [run lstrip_by]. rewrite Hd.
    cbn [Nat.leb]. rewrite (lstrip_by_inside _ _ _ Hds).
    assert (E : lstrip_by is_digit (w2 ++ COLON :: s4) = w2 ++ COLON :: s4).
    { destruct w2 as [| x w2]; [reflexivity |]. simpl in *.
      apply andb_true_iff in H2 as [Hx _].
      now rewrite (space_not_digit _ Hx). }
    rewrite E, (lstrip_by_inside _ _ _ H2). reflexivity.
Qed.

(** A marker is the word, then white space, then digits, then white space,
    then a colon. *)
Lemma marker_at_shape s :
  marker_at s = true <->
  exists w1 ds w2 t,
    s = py "Slide" ++ w1 ++ ds ++ w2 ++ COLON :: t /\
    forallb is_space w1 = true /\
    ds <> [] /\ forallb is_digit ds = true /\
    forallb is_space w2 = true.
Proof.
  rewrite marker_at_end. split.
  - destruct (marker_end s) as [t |] eqn:E; [| discriminate]. intros _.
    apply marker_end_shape in E as (w1 & ds & w2 & H). now exists w1, ds, w2, t.
  - intros (w1 & ds & w2 & t & H).
    assert (E : marker_end s = Some t)
      by (apply marker_end_shape; now exists w1, ds, w2).
    now rewrite E.
Qed.

Lemma marker_at_starts s :
  marker_at s = true -> starts_with (py "Slide") s = true.
Proof.
  rewrite marker_at_end. unfold marker_end.
  destruct (starts_with (py "Slide") s); [reflexivity | discriminate].
Qed.

Lemma occurs_false_no_marker text :
  occurs (py "Slide") text = false -> has_marker text = false.
Proof.
  assert (Hat : forall s, starts_with (py "Slide") s = false ->
                          marker_at s = false).
  { intros s H. destruct (marker_at s) eqn:E; [| reflexivity].
    apply marker_at_starts in E. congruence. }
  induction text as [| c text IH]; cbn [occurs has_marker]; intros H;
    apply orb_false_iff in H as [H1 H2]; rewrite (Hat _ H1).
  - reflexivity.
  - now apply IH.
Qed.

(** ** White space around the text *)

Lemma forallb_In (cls : char -> bool) l c :
  forallb cls l = true -> In c l -> cls c = true.
Proof. intros H. revert c. now apply forallb_forall. Qed.

(** White space after the text neither makes nor breaks a marker. *)
Lemma marker_end_app_space s ws :
  forallb is_space ws = true ->
  marker_end (s ++ ws) = (fun s4 => s4 ++ ws) <$> marker_end s.
Proof.
  intros Hws.
  assert (Hfwd : forall s4, marker_end s = Some s4 ->
                            marker_end (s ++ ws) = Some (s4 ++ ws)).
  { intros s4 H. apply marker_end_shape in H as (w1 & ds & w2 & -> & H).
    apply marker_end_shape. exists w1, ds, w2. split; [| exact H].
    now rewrite <- !app_assoc. }
  destruct (marker_end s) as [s4 |] eqn:Em; simpl; [now apply Hfwd |].
  destruct (marker_end (s ++ ws)) as [s4' |] eqn:Em'; [| reflexivity].
  exfalso. apply marker_end_shape in Em' as (w1 & ds & w2 & E & H).
  rewrite !app_assoc in E. apply app_eq_app in E as (l & [[E1 E2] | [E1 E2]]).
  - destruct l as [| c l].
    + simpl in E2. subst ws. simpl in Hws. discriminate.
    + injection E2 as Ec E2. subst c s4'.
      assert (Hs : marker_end s = Some l); [| congruence].
      apply marker_end_shape. exists w1, ds, w2. split; [| exact H].
      rewrite E1. now rewrite <- !app_assoc.
  - assert (Hc : is_space COLON = true); [| discriminate Hc].
    apply (forallb_In _ ws); [exact Hws |]. rewrite E2.
    apply in_or_app. right. now left.
Qed.

Lemma space_no_marker_at s c :
  is_space c = true -> marker_at (c :: s) = false.
Proof.
  intros Hc. destruct (marker_at (c :: s)) eqn:E; [| reflexivity].
  apply marker_at_starts in E. simpl in E.
  apply andb_true_iff in E as [E _]. apply N.eqb_eq in E. subst c.
  vm_compute in Hc. discriminate.
Qed.

Lemma marker_at_nil : marker_at [] = false.
Proof. reflexivity. Qed.

(** No marker starts inside white space. *)
Lemma space_marker_before pre suf :
  forallb is_space pre = true -> marker_before pre suf = false.
Proof.
  induction pre as [| c pre IH]; simpl; [reflexivity |].
  intros H. apply andb_true_iff in H as [Hc H].
  rewrite (IH H), orb_false_r. now apply space_no_marker_at.
Qed.

Lemma space_has_marker s : forallb is_space s = true -> has_marker s = false.
Proof.
  induction s as [| c s IH]; cbn [has_marker forallb]; [reflexivity |].
  intros H. apply andb_true_iff in H as [Hc H].
  now rewrite (IH H), orb_false_r, space_no_marker_at.
Qed.

Lemma segment_end_suffix s : segment_end s `suffix_of` s.
Proof.
  induction s as [| c s IH]; simpl.
  - destruct (segment_stop []); apply suffix_nil.
  - destruct (segment_stop (c :: s)); [reflexivity | now apply suffix_cons_r].
Qed.

Lemma forallb_suffix (cls : char -> bool) (l' l : str) :
  l' `suffix_of` l -> forallb cls l = true -> forallb cls l' = true.
Proof.
  intros [pre ->]. rewrite forallb_app. intros H.
  now apply andb_true_iff in H as [_ H].
Qed.

(** Where a segment ends when white space is appended to the text: at
    the same marker, or inside the white space at the end. *)
Lemma segment_end_app_space p ws :
  forallb is_space ws = true ->
  (marker_at (segment_end p) = true /\
   segment_end (p ++ ws) = segment_end p ++ ws) \/
  (forallb is_space (segment_end p) = true /\
   forallb is_space (segment_end (p ++ ws)) = true /\
   segment_end (p ++ ws) `suffix_of` segment_end p ++ ws).
Proof.
  intros Hws. induction p as [| c p IH].
  - right. cbn [segment_end]. change (segment_stop []) with true.
    cbn [app forallb]. split; [reflexivity |]. split.
    + eapply forallb_suffix; [apply segment_end_suffix | exact Hws].
    + apply segment_end_suffix.
  - cbn [segment_end app]. unfold segment_stop.
    change (c :: p ++ ws) with ((c :: p) ++ ws).
    rewrite (marker_end_app_space _ _ Hws).
    destruct (marker_end (c :: p)) as [s4 |] eqn:Em; cbn [fmap option_fmap option_map].
    + left. split; [| reflexivity]. rewrite marker_at_end. now rewrite Em.
    + destruct (at_end (c :: p)) eqn:Ee.
      * right. destruct p as [| c' p]; [| discriminate Ee].
        cbn [at_end] in Ee. apply N.eqb_eq in Ee. subst c.
        assert (Hall : forallb is_space ([LF] ++ ws) = true)
          by (cbn [app forallb]; now rewrite Hws).
        split; [reflexivity |].
        change (if at_end ([LF] ++ ws) then [LF] ++ ws
                else segment_end ([] ++ ws))
          with (if at_end ([LF] ++ ws) then [LF] ++ ws else segment_end ws).
        destruct (at_end ([LF] ++ ws)).
        -- split; [exact Hall | reflexivity].
        -- split.
           ++ eapply forallb_suffix; [apply segment_end_suffix | exact Hws].
           ++ apply suffix_cons_r, segment_end_suffix.
      * assert (Ee' : at_end ((c :: p) ++ ws) = false).
        { destruct p as [| c' p]; [| reflexivity].
          destruct ws as [| w ws]; [exact Ee | reflexivity]. }
        rewrite Ee'. exact IH.
Qed.

Lemma lstrip_by_app (cls : char -> bool) a w :
  lstrip_by cls (a ++ w) =
    match lstrip_by cls a with
    | [] => lstrip_by cls w
    | c :: t => (c :: t) ++ w
    end.
Proof.
  induction a as [| x a IH]; simpl.
  - destruct (lstrip_by cls w); reflexivity.
  - destruct (cls x); [exact IH | reflexivity].
Qed.

Lemma lstrip_by_all (cls : char -> bool) w :
  forallb cls w = true -> lstrip_by cls w = [].
Proof.
  intros H. rewrite <- (app_nil_r w). now rewrite lstrip_by_inside.
Qed.

Lemma rstrip_by_app_inside (cls : char -> bool) a w :
  forallb cls w = true -> rstrip_by cls (a ++ w) = rstrip_by cls a.
Proof.
  intros H. unfold rstrip_by. rewrite rev_app_distr.
  rewrite lstrip_by_inside; [reflexivity | now rewrite forallb_rev].
Qed.

(** White space after a segment does not change its record. *)
Lemma strip_app_space a w :
  forallb is_space w = true -> strip (a ++ w) = strip a.
Proof.
  intros H. unfold strip, strip_by. rewrite lstrip_by_app.
  destruct (lstrip_by is_space a) as [| c t].
  - now rewrite (lstrip_by_all _ _ H).
  - now apply rstrip_by_app_inside.
Qed.

Lemma segment_record_app_space a w :
  forallb is_space w = true -> segment_record (a ++ w) = segment_record a.
Proof.
  intros H. unfold segment_record, segment_lines.
  now rewrite (strip_app_space _ _ H).
Qed.

Lemma take_before_suffix (e b : str) :
  e `suffix_of` b ->
  b = take (length b - length e) b ++ e.
Proof.
  intros [pre ->]. rewrite length_app.
  replace (length pre + length e - length e)%nat with (length pre) by lia.
  now rewrite take_app_length.
Qed.

Lemma marker_end_shorter s s4 :
  marker_end s = Some s4 -> (length s4 < length s)%nat.
Proof.
  intros H. apply marker_end_shape in H as (w1 & ds & w2 & -> & _).
  rewrite !length_app. simpl. lia.
Qed.

Lemma lstrip_by_length (cls : char -> bool) s :
  (length (lstrip_by cls s) <= length s)%nat.
Proof. rewrite lstrip_by_run, length_drop. lia. Qed.

Lemma space_no_records s :
  forallb is_space s = true ->
  flat_map segment_record (findall slide_pattern s) = [].
Proof.
  intros H. now rewrite findall_no_marker by now apply space_has_marker.
Qed.

(** White space at the end of the text does not change the records. *)
Lemma records_app_space ws :
  forallb is_space ws = true ->
  forall n s, (length s < n)%nat ->
    flat_map segment_record (findall slide_pattern (s ++ ws)) =
    flat_map segment_record (findall slide_pattern s).
Proof.
  intros Hws. induction n as [| n IH]; intros s Hn; [lia |].
  rewrite (findall_unfold (s ++ ws)), (findall_unfold s). unfold scan_slide.
  rewrite (marker_end_app_space _ _ Hws).
  destruct (marker_end s) as [s4 |] eqn:Em; cbn [fmap option_fmap option_map].
  - apply marker_end_shorter in Em.
    pose proof (lstrip_by_length is_space s4) as Hb.
    rewrite lstrip_by_app.
    destruct (lstrip_by is_space s4) as [| x b0] eqn:Eb.
    + rewrite (lstrip_by_all _ _ Hws). reflexivity.
    + set (b := x :: b0) in *.
      pose proof (segment_end_suffix b) as Hsuf.
      pose proof (suffix_length _ _ Hsuf) as Hlen.
      pose proof (take_before_suffix _ _ Hsuf) as Hcap.
      pose proof (take_before_suffix _ _ (segment_end_suffix (b ++ ws))) as Hcap'.
      cbn [default group1 rest flat_map].
      destruct (segment_end_app_space b ws Hws) as [[Hm He] | (He1 & He2 & Hsuf')].
      * rewrite He in *. rewrite IH by lia. f_equal. f_equal.
        rewrite !length_app.
        replace (length b + length ws - (length (segment_end b) + length ws))%nat
          with (length b - length (segment_end b))%nat by lia.
        apply take_app_le. lia.
      * rewrite (space_no_records _ He1), (space_no_records _ He2).
        f_equal. destruct Hsuf' as [x' Hx'].
        set (cap := take (length b - length (segment_end b)) b) in *.
        set (cap' := take (length (b ++ ws) - length (segment_end (b ++ ws)))
                          (b ++ ws)) in *.
        assert (E : cap' = cap ++ x').
        { apply (app_inv_tail (segment_end (b ++ ws))).
          rewrite <- Hcap', <- app_assoc, <- Hx', app_assoc, <- Hcap.
          reflexivity. }
        rewrite E. apply segment_record_app_space.
        assert (Hall : forallb is_space (segment_end b ++ ws) = true)
          by (rewrite forallb_app; now rewrite He1, Hws).
        rewrite Hx', forallb_app in Hall.
        now apply andb_true_iff in Hall as [Hall _].
  - destruct s as [| c s]; cbn [app].
    + destruct ws as [| w ws]; [reflexivity |].
      apply space_no_records. simpl in Hws.
      now apply andb_true_iff in Hws as [_ Hws].
    + apply IH. simpl in Hn. lia.
Qed.

(** Stripping the text of white space does not change the result. *)
Lemma parse_slides_strip text max_slides :
  parse_slides (strip text) max_slides = parse_slides text max_slides.
Proof.
  rewrite !parse_slides_eq. f_equal. unfold strip, strip_by.
  destruct (rstrip_by_decompose is_space (lstrip_by is_space text))
    as (post & E & Hpost).
  rewrite <- (records_app_space post Hpost _ _ (Nat.lt_succ_diag_r _)).
  rewrite <- E.
  rewrite (lstrip_by_decompose is_space text) at 2.
  rewrite findall_skip; [reflexivity |].
  apply space_marker_before, run_inside.
Qed.

(** ** parse_slides *)

(** C1: every record returned by [parse_slides] should have a non-empty
    title, and a segment whose lines all strip to nothing should give no
    record.  The code filters the lines on [l.strip()] and only then
    strips the glyphs, so on ["Slide 1: -"] the one line survives the
    filter, strips to the empty string, and is returned as a title. *)
Theorem C1_glyph_line_gives_empty_title :
  parse_slides (py "Slide 1: -") 6 = [Slide [] []].
Proof. vm_compute. reflexivity. Qed.

(** C2, as stated, fails: the word of the marker is matched letter for
    letter, so another capitalisation is not a marker and the records
    differ. *)
Lemma C2_capitalisation_changes_result :
  parse_slides (py "Slide 1: Intro") 6 = [Slide (py "Intro") []] /\
  parse_slides (py "slide 1: Intro") 6 = [] /\
  parse_slides (py "SLIDE 1: Intro") 6 = [] /\
  parse_slides (py "slide 1: Intro") 6 <> parse_slides (py "Slide 1: Intro") 6.
Proof. vm_compute. repeat split; discriminate. Qed.

(** C2, amended: a marker is the word "Slide" in exactly this
    capitalisation, then optional white space, one or more decimal digits,
    optional white space and a colon; a text in which the word "Slide"
    does not occur as written, for instance because its markers are
    capitalised otherwise, has no record. *)
Theorem C2_marker_is_case_sensitive :
  (forall s,
     marker_at s = true <->
     exists w1 ds w2 t,
       s = py "Slide" ++ w1 ++ ds ++ w2 ++ COLON :: t /\
       forallb is_space w1 = true /\
       ds <> [] /\ forallb is_digit ds = true /\
       forallb is_space w2 = true) /\
  (forall text max_slides,
     occurs (py "Slide") text = false -> parse_slides text max_slides = []).
Proof.
  split; [exact marker_at_shape |].
  intros text m H. rewrite parse_slides_eq, findall_no_marker.
  - apply slice_to_nil.
  - now apply occurs_false_no_marker.
Qed.

Lemma C2_marker_is_case_sensitive_witness :
  occurs (py "Slide") (py "slide 1: Intro") = false /\
  parse_slides (py "slide 1: Intro") 6 = [].
Proof.
  split; [reflexivity |].
  apply (proj2 C2_marker_is_case_sensitive (py "slide 1: Intro") 6%Z).
  reflexivity.
Defined.

Lemma strip_empty_iff s : strip s = [] <-> forallb is_space s = true.
Proof.
  unfold strip. split.
  - intros H.
    destruct (strip_by_decompose is_space s) as (pre & post & E & Hpre & Hpost).
    rewrite H in E. rewrite E, forallb_app. simpl. now rewrite Hpre, Hpost.
  - intros H. unfold strip_by.
    replace (lstrip_by is_space s) with (@nil char); [reflexivity |].
    rewrite <- (app_nil_r s). now rewrite lstrip_by_inside.
Qed.

(** C3, as stated, fails: hyphens and bullet dots go at the end of a line
    as well as at its front, and of the white space only the space and the
    newline go, beyond what stripping the whole segment removes: a tab at
    the end of a line stays unless the line is the last of its segment. *)
Lemma C3_line_rule_differs :
  parse_slides (py "Slide 1: Intro -") 6 = [Slide (py "Intro") []] /\
  spec_parse_slides (py "Slide 1: Intro -") 6 = [Slide (py "Intro -") []] /\
  parse_slides (py "Slide 1: Intro -") 6 <>
    spec_parse_slides (py "Slide 1: Intro -") 6 /\
  parse_slides (nl (py "Slide 1: T") (nl (py "- a" ++ [TAB]) (py "- b"))) 6 =
    [Slide (py "T") [py "a" ++ [TAB]; py "b"]] /\
  spec_parse_slides (nl (py "Slide 1: T") (nl (py "- a" ++ [TAB]) (py "- b"))) 6 =
    [Slide (py "T") [py "a"; py "b"]] /\
  parse_slides
    (nl (py "Slide 1: T") (nl (py "- a" ++ [TAB]) (py "- b" ++ [TAB]))) 6 =
    [Slide (py "T") [py "a" ++ [TAB]; py "b"]].
Proof. vm_compute. repeat split; discriminate. Qed.

Lemma segment_record_lines seg r :
  In r (segment_record seg) ->
  exists l ls,
    filter nonblank (split LF (strip seg)) = l :: ls /\
    title r = strip_chars glyphs l /\
    points r = map (strip_chars glyphs) ls.
Proof.
  unfold segment_record, segment_lines. fold nonblank.
  destruct (filter nonblank (split LF (strip seg))) as [| l ls]; simpl.
  - contradiction.
  - intros [<- | []]. now exists l, ls.
Qed.

Lemma blank_iff l : blank l = true <-> forallb is_space l = true.
Proof.
  unfold blank. rewrite <- strip_empty_iff.
  destruct (strip l); cbn [truthy negb]; split; congruence.
Qed.

(** A line that the strip leaves with text had text. *)
Lemma blank_strip_chars l : blank l = true -> blank (strip_chars glyphs l) = true.
Proof.
  rewrite !blank_iff. unfold strip_chars.
  destruct (strip_by_decompose (fun c => existsb (N.eqb c) glyphs) l)
    as (pre & post & E & _ & _).
  intros H. rewrite E, !forallb_app in H.
  now apply andb_true_iff in H as [_ [H _]%andb_true_iff].
Qed.

Lemma stripped_lines_eq (lines : list str) :
  forallb (fun l => blank l || negb (blank (strip_chars glyphs l))) lines = true ->
  map (strip_chars glyphs) (filter nonblank lines) =
    filter (fun l => blank l = false) (map (strip_chars glyphs) lines).
Proof.
  induction lines as [| l lines IH]; [reflexivity |]. cbn [forallb map].
  intros [Hl Hs]%andb_true_iff. rewrite !filter_cons, <- (IH Hs).
  pose proof (blank_strip_chars l) as Hb.
  destruct (decide (nonblank l)) as [Hn | Hn];
    destruct (decide (blank (strip_chars glyphs l) = false)) as [Hk | Hk];
    try reflexivity; exfalso.
  - unfold nonblank in Hn. unfold blank at 1 in Hl. rewrite Hn in Hl.
    cbn [negb orb] in Hl. apply negb_true_iff in Hl. contradiction.
  - unfold nonblank in Hn. unfold blank at 1 in Hb.
    destruct (truthy (strip l)); [now destruct Hn |].
    rewrite Hb in Hk by reflexivity. discriminate Hk.
Qed.

Lemma stripped_record_eq seg :
  lines_keep_text seg = true -> segment_record seg = stripped_record seg.
Proof.
  intros H. unfold segment_record, stripped_record, segment_lines, stripped_lines.
  fold nonblank. now rewrite (stripped_lines_eq _ H).
Qed.

Lemma stripped_records_eq (segs : list str) :
  forallb lines_keep_text segs = true ->
  flat_map segment_record segs = flat_map stripped_record segs.
Proof.
  induction segs as [| seg segs IH]; [reflexivity |]. cbn [forallb flat_map].
  intros [H Hs]%andb_true_iff. now rewrite (stripped_record_eq _ H), (IH Hs).
Qed.

(** C3, amended: [parse_slides] strips a segment of the white space
    around it, splits it at newlines, strips every line, at both ends, of
    the four characters space, hyphen, bullet dot and newline and of
    nothing else, discards the lines then blank, and takes the first line
    left as the title and the following ones as the points, in their
    order; the records of a text are those of its segments, in order, up
    to the cut.  This is stated for the texts in which no line of a
    segment is made of hyphens, bullet dots and white space only while it
    holds a hyphen or a bullet dot.  On the scenario text the function
    returns the two records of the specification. *)
Theorem C3_lines_of_a_segment :
  parse_slides scenario 6 =
    [Slide (py "Intro") [py "point a"; py "point b"];
     Slide (py "Conclusion") [py "point c"]] /\
  (forall text max_slides,
     forallb lines_keep_text (findall slide_pattern text) = true ->
     parse_slides text max_slides =
       slice_to (flat_map stripped_record (findall slide_pattern text))
                max_slides) /\
  (forall l,
     exists pre post,
       l = pre ++ strip_chars glyphs l ++ post /\
       forallb is_glyph pre = true /\ forallb is_glyph post = true /\
       match head (strip_chars glyphs l) with
       | Some c => is_glyph c = false
       | None => True
       end /\
       match last (strip_chars glyphs l) with
       | Some c => is_glyph c = false
       | None => True
       end) /\
  (forall l, blank l = true <-> forallb is_space l = true).
Proof.
  split; [vm_compute; reflexivity |]. split; [| split; [| exact blank_iff]].
  - intros text m H. rewrite parse_slides_eq. f_equal.
    now apply stripped_records_eq.
  - intros l. unfold strip_chars. fold is_glyph.
    destruct (strip_by_decompose is_glyph l) as (pre & post & E & Hpre & Hpost).
    exists pre, post. repeat split; try assumption.
    + destruct (head (strip_by is_glyph l)) as [c |] eqn:Eh; [| exact I].
      eapply strip_by_head, Eh.
    + destruct (last (strip_by is_glyph l)) as [c |] eqn:El; [| exact I].
      eapply strip_by_last, El.
Qed.

Lemma C3_lines_of_a_segment_witness :
  forallb lines_keep_text
          (findall slide_pattern
                   (nl (py "Slide 1: T") (nl (py "- a" ++ [TAB]) (py "b -")))) =
    true /\
  parse_slides (nl (py "Slide 1: T") (nl (py "- a" ++ [TAB]) (py "b -"))) 6 =
    slice_to (flat_map stripped_record
                (findall slide_pattern
                   (nl (py "Slide 1: T") (nl (py "- a" ++ [TAB]) (py "b -")))))
             6.
Proof.
  assert (H : forallb lines_keep_text
                (findall slide_pattern
                   (nl (py "Slide 1: T") (nl (py "- a" ++ [TAB]) (py "b -")))) =
              true) by (vm_compute; reflexivity).
  split; [exact H |].
  exact (proj1 (proj2 C3_lines_of_a_segment) _ 6%Z H).
Defined.

(** C4, as stated, fails for a negative [max_slides]: the slice
    [parsed[:-1]] drops the last record and keeps the others, and no list
    has fewer than zero entries. *)
Lemma C4_negative_max_slides :
  parse_slides (nl (py "Slide 1: A") (py "Slide 2: B")) (-1) =
    [Slide (py "A") []] /\
  ~ (Z.of_nat (length (parse_slides (nl (py "Slide 1: A") (py "Slide 2: B")) (-1)))
     <= Z.min (Z.of_nat (count_markers (nl (py "Slide 1: A") (py "Slide 2: B"))))
              (-1))%Z.
Proof. vm_compute. split; [reflexivity | intros H; now apply H]. Qed.

Lemma parsed_at_most_markers text :
  (length (flat_map segment_record (findall slide_pattern text))
   <= count_markers text)%nat.
Proof.
  etransitivity; [apply segment_records_length | apply findall_from_count].
Qed.

(** A cut that is not negative keeps the first records. *)
Lemma parse_slides_cut text max_slides :
  (0 <= max_slides)%Z ->
  parse_slides text max_slides =
    take (Z.to_nat max_slides)
         (parse_slides text (Z.of_nat (count_markers text))).
Proof.
  intros H. rewrite !parse_slides_eq.
  pose proof (parsed_at_most_markers text) as HK.
  rewrite !slice_to_nonneg by lia. rewrite Nat2Z.id.
  now rewrite (take_ge _ (count_markers text)).
Qed.

(** C4, amended: for a text with K markers and every [max_slides] that is
    not negative, [parse_slides] returns at most min(K, max_slides)
    records: the first [max_slides] of the records it finds, all of them
    when there are fewer, never more. *)
Theorem C4_at_most_min (text : str) (max_slides : Z) :
  (0 <= max_slides)%Z ->
  (Z.of_nat (length (parse_slides text max_slides))
   <= Z.min (Z.of_nat (count_markers text)) max_slides)%Z /\
  parse_slides text max_slides =
    take (Z.to_nat max_slides)
         (parse_slides text (Z.of_nat (count_markers text))).
Proof.
  intros H. split; [| now apply parse_slides_cut].
  rewrite parse_slides_eq, slice_to_nonneg, length_take by exact H.
  pose proof (parsed_at_most_markers text). lia.
Qed.

Lemma C4_at_most_min_witness :
  (Z.of_nat (length (parse_slides five_segments 3))
   <= Z.min (Z.of_nat (count_markers five_segments)) 3)%Z /\
  parse_slides five_segments 3 =
    take (Z.to_nat 3)
         (parse_slides five_segments (Z.of_nat (count_markers five_segments))).
Proof. apply (C4_at_most_min five_segments 3). lia. Defined.

(** C9: [parse_slides] returns the empty list for the empty string and
    for every text in which no marker starts; it is a total function, so
    it returns. *)
Theorem C9_no_marker_no_slides :
  (forall max_slides, parse_slides [] max_slides = []) /\
  (forall text max_slides,
     has_marker text = false -> parse_slides text max_slides = []).
Proof.
  assert (H : forall text m, has_marker text = false -> parse_slides text m = []).
  { intros text m H. rewrite parse_slides_eq, findall_no_marker by exact H.
    apply slice_to_nil. }
  split; [| exact H].
  intros m. apply H. reflexivity.
Qed.

Lemma C9_no_marker_no_slides_witness :
  has_marker (py "An outline without any marker") = false /\
  parse_slides (py "An outline without any marker") 6 = [].
Proof.
  split; [reflexivity |].
  apply (proj2 C9_no_marker_no_slides). reflexivity.
Defined.

(** C10: the text before the first marker is discarded: when no marker
    starts inside [pre], the records of [pre ++ suf] are the records of
    [suf], whatever [pre] holds. *)
Theorem C10_preamble_discarded (pre suf : str) (max_slides : Z) :
  marker_before pre suf = false ->
  parse_slides (pre ++ suf) max_slides = parse_slides suf max_slides.
Proof.
  intros H. rewrite !parse_slides_eq. now rewrite findall_skip.
Qed.

Lemma C10_preamble_discarded_witness :
  marker_before (py "Here is your outline: ") (py "Slide 1: A") = false /\
  parse_slides (py "Here is your outline: " ++ py "Slide 1: A") 6 =
    parse_slides (py "Slide 1: A") 6.
Proof.
  split; [reflexivity |].
  apply C10_preamble_discarded. reflexivity.
Defined.

(** ** Theme lookup *)

(** A name written out is not one of the five. *)
Ltac not_a_theme :=
  let H := fresh in
  unfold theme_names; simpl; intros H;
  repeat (destruct H as [H | H]; [discriminate H |]); exact H.

Lemma theme_colors_modern : theme_colors !! py "modern" = Some modern_theme.
Proof. unfold theme_colors. apply lookup_insert_eq. Qed.

Lemma theme_colors_unknown template :
  ~ In template theme_names -> theme_colors !! template = None.
Proof.
  intros H. unfold theme_colors.
  rewrite !lookup_insert_ne; [apply lookup_empty | ..];
    intros <-; apply H; unfold theme_names; simpl; tauto.
Qed.

Lemma lookup_colors_default template :
  lookup_colors template =
    Some (default modern_theme (theme_colors !! template)).
Proof. unfold lookup_colors. now rewrite theme_colors_modern. Qed.

Lemma theme_colors_valid template colors :
  theme_colors !! template = Some colors ->
  rgb_valid (bg colors) = true /\ rgb_valid (text colors) = true.
Proof.
  destruct (in_dec (List.list_eq_dec N.eq_dec) template theme_names) as [Hin | Hout].
  - unfold theme_names in Hin. simpl in Hin.
    repeat (destruct Hin as [<- | Hin];
            [vm_compute; intros [= <-]; split; reflexivity |]).
    contradiction.
  - rewrite (theme_colors_unknown _ Hout). discriminate.
Qed.

(** C5: the theme lookup has no error path: for every string it yields a
    color pair with components of one byte, [apply_template_style] fills
    the background with it and returns its text color, a name outside the
    table yields the pair of "modern", and so do "unknown-xyz" and the
    empty string. *)
Theorem C5_theme_lookup_total (template : str) :
  (exists colors,
     lookup_colors template = Some colors /\
     rgb_valid (bg colors) = true /\ rgb_valid (text colors) = true /\
     forall s, apply_template_style s template =
                 Some (PSlide (Some (bg colors)) (shapes s), text colors)) /\
  (~ In template theme_names -> lookup_colors template = Some modern_theme) /\
  lookup_colors (py "modern") = Some modern_theme /\
  lookup_colors (py "unknown-xyz") = lookup_colors (py "modern") /\
  lookup_colors [] = lookup_colors (py "modern").
Proof.
  split; [| split; [| split; [| split]]].
  - exists (default modern_theme (theme_colors !! template)).
    split; [apply lookup_colors_default |].
    assert (Hv : rgb_valid (bg (default modern_theme (theme_colors !! template))) = true /\
                 rgb_valid (text (default modern_theme (theme_colors !! template))) = true).
    { destruct (theme_colors !! template) as [colors |] eqn:E.
      - exact (theme_colors_valid _ _ E).
      - split; reflexivity. }
    destruct Hv as [Hb Ht]. split; [exact Hb | split; [exact Ht |]].
    intros s. unfold apply_template_style.
    now rewrite lookup_colors_default.
  - intros H. now rewrite lookup_colors_default, theme_colors_unknown.
  - now rewrite lookup_colors_default, theme_colors_modern.
  - rewrite !lookup_colors_default, theme_colors_modern, theme_colors_unknown.
    + reflexivity.
    + not_a_theme.
  - rewrite !lookup_colors_default, theme_colors_modern, theme_colors_unknown.
    + reflexivity.
    + not_a_theme.
Qed.

Lemma C5_theme_lookup_total_witness :
  ~ In (py "unknown-xyz") theme_names /\
  lookup_colors (py "unknown-xyz") = Some modern_theme.
Proof.
  assert (H : ~ In (py "unknown-xyz") theme_names) by not_a_theme.
  split; [exact H |].
  exact (proj1 (proj2 (C5_theme_lookup_total (py "unknown-xyz"))) H).
Defined.

(** ** The deck builder *)

Lemma stored_char_plain c : plain c = true -> stored_char c = [c].
Proof.
  unfold plain, stored_char, LF, VT, TAB. intros H.
  apply orb_true_iff in H.
  assert (Hc : c = 9 \/ 32 <= c).
  { destruct H as [H | H]; [left; now apply N.eqb_eq | right; now apply N.leb_le]. }
  clear H.
  destruct (N.eqb_spec c 10) as [E | _]; [lia |].
  destruct (N.eqb_spec c 11) as [E | _]; [lia |].
  destruct (N.leb_spec c 8) as [H8 | _]; [lia |].
  destruct (N.leb_spec 11 c) as [H11 | _]; [| reflexivity].
  destruct (N.leb_spec c 31) as [H31 | _]; [lia | reflexivity].
Qed.

Lemma stored_text_plain s : forallb plain s = true -> stored_text s = s.
Proof.
  induction s as [| c s IH]; [reflexivity |]. cbn [forallb].
  intros [Hc Hs]%andb_true_iff. unfold stored_text. cbn [flat_map].
  rewrite (stored_char_plain _ Hc). cbn [app]. f_equal. now apply IH.
Qed.

Lemma bullet_paragraph_eq text_color bullet :
  bullet_paragraph text_color bullet =
    if existsb xml_refused (strip bullet) then None
    else Some (rendered_bullet text_color bullet).
Proof.
  unfold bullet_paragraph, set_text.
  change (existsb xml_refused (ARROW :: SPACE :: strip bullet))
    with (existsb xml_refused (strip bullet)).
  now destruct (existsb xml_refused (strip bullet)).
Qed.

Lemma add_bullets_raised text_color bullets :
  fold_left (fun acc bullet =>
               box ← acc;
               bp ← bullet_paragraph text_color bullet;
               Some (add_paragraph box bp))
            bullets None = None.
Proof. induction bullets as [| b bullets IH]; [reflexivity | exact IH]. Qed.

Lemma add_bullets text_color bullets : forall box,
  fold_left (fun acc bullet =>
               box ← acc;
               bp ← bullet_paragraph text_color bullet;
               Some (add_paragraph box bp))
            bullets (Some box) =
    if forallb (fun bullet => negb (existsb xml_refused (strip bullet))) bullets
    then Some (TextBox (left box) (top box) (width box) (height box)
                       (word_wrap box)
                       (paragraphs box ++
                          map (rendered_bullet text_color) bullets))
    else None.
Proof.
  induction bullets as [| b bullets IH]; intros box; cbn [fold_left forallb map].
  - rewrite app_nil_r. now destruct box.
  - cbn [mbind option_bind]. rewrite bullet_paragraph_eq.
    destruct (existsb xml_refused (strip b)); cbn [negb andb mbind option_bind].
    + apply add_bullets_raised.
    + rewrite IH. cbn [add_paragraph left top width height word_wrap paragraphs].
      now rewrite <- app_assoc.
Qed.

(** [build_slide] leaves the rendered slide, or raises. *)
Lemma build_slide_eq template colors slide_data :
  lookup_colors template = Some colors ->
  build_slide template slide_data =
    if writable slide_data then Some (rendered_slide colors slide_data)
    else None.
Proof.
  intros H. unfold build_slide, apply_template_style, writable.
  rewrite H. cbn [mbind option_bind]. unfold title_paragraph, set_text.
  destruct (existsb xml_refused (title slide_data));
    cbn [negb andb mbind option_bind]; [reflexivity |].
  rewrite add_bullets.
  now destruct (forallb _ (points slide_data)).
Qed.

Lemma add_slides_raised template slides_data :
  fold_left (fun acc slide_data =>
               prs ← acc;
               sl ← build_slide template slide_data;
               Some (Prs (slide_width prs) (slide_height prs)
                         (slides prs ++ [sl])))
            slides_data None = None.
Proof. induction slides_data as [| r rs IH]; [reflexivity | exact IH]. Qed.

Lemma add_slides template colors slides_data : forall w h acc,
  lookup_colors template = Some colors ->
  fold_left (fun acc slide_data =>
               prs ← acc;
               sl ← build_slide template slide_data;
               Some (Prs (slide_width prs) (slide_height prs)
                         (slides prs ++ [sl])))
            slides_data (Some (Prs w h acc)) =
    if forallb writable slides_data
    then Some (Prs w h (acc ++ map (rendered_slide colors) slides_data))
    else None.
Proof.
  induction slides_data as [| sd slides_data IH]; intros w h acc H;
    cbn [fold_left forallb map].
  - now rewrite app_nil_r.
  - cbn [mbind option_bind]. rewrite (build_slide_eq _ _ _ H).
    destruct (writable sd); cbn [andb mbind option_bind].
    + cbn [slide_width slide_height slides].
      rewrite IH by exact H. now rewrite <- app_assoc.
    + apply add_slides_raised.
Qed.

(** The builder saves the rendered deck, or raises. *)
Lemma create_ppt_eq slides_data template uuid fs :
  create_ppt_from_slides slides_data template uuid fs =
    if forallb writable slides_data
    then Some (uuid ++ py ".pptx",
               <[path_join OUTPUT_DIR (uuid ++ py ".pptx") :=
                   rendered_deck (default modern_theme (theme_colors !! template))
                                 slides_data]> fs)
    else None.
Proof.
  unfold create_ppt_from_slides.
  change (slides Presentation) with (@nil slide).
  rewrite (add_slides _ _ _ _ _ _ (lookup_colors_default template)).
  now destruct (forallb writable slides_data).
Qed.

Lemma create_ppt_rendered slides_data template uuid fs :
  forallb writable slides_data = true ->
  create_ppt_from_slides slides_data template uuid fs =
    Some (uuid ++ py ".pptx",
          <[path_join OUTPUT_DIR (uuid ++ py ".pptx") :=
              rendered_deck (default modern_theme (theme_colors !! template))
                            slides_data]> fs).
Proof. intros H. now rewrite create_ppt_eq, H. Qed.

Lemma create_ppt_raised slides_data template uuid fs :
  forallb writable slides_data = false ->
  create_ppt_from_slides slides_data template uuid fs = None.
Proof. intros H. now rewrite create_ppt_eq, H. Qed.

(** C8, as stated, fails: a bullet line is not the point behind the
    glyph but the point stripped of white space behind the glyph; the
    title of a slide is not the title of the record when that holds a
    control character; and no document is produced for a record that
    holds U+FFFF. *)
Lemma C8_texts_are_not_copied :
  (fun prs => map bullet_lines (slides prs)) <$>
    saved_deck [Slide (py "T") [py " a"]] (py "dark") (py "id") =
    Some [[ARROW :: SPACE :: py "a"]] /\
  (fun prs => map bullet_lines (slides prs)) <$>
    saved_deck [Slide (py "T") [py " a"]] (py "dark") (py "id") <>
    Some [map (fun point => ARROW :: SPACE :: point) [py " a"]] /\
  (fun prs => map title_line (slides prs)) <$>
    saved_deck [Slide (py "Intro" ++ [CR]) []] (py "dark") (py "id") =
    Some [Some (py "Intro_x000D_")] /\
  create_ppt_from_slides [Slide (py "A" ++ [65535]) []] (py "dark") (py "id") ∅ =
    None.
Proof.
  vm_compute. split; [reflexivity |]. split; [discriminate |].
  split; reflexivity.
Qed.

(** C8, amended: for records of which no title and no stripped point
    holds a character that the document library refuses (a surrogate,
    U+FFFE, U+FFFF), [create_ppt_from_slides] saves, under the output
    directory, a document with one slide per record, in the order of the
    records, and returns the file name, not the path; for other records
    it raises.  The slide has the background of the
    resolved theme, a title box whose added paragraph holds the title of
    the record as the library stores it, and a content box whose added
    paragraphs hold, for each point in order, the glyph, a space and the
    point stripped of white space at both ends, stored likewise; all
    these paragraphs have the text color of the theme.  A text is stored
    as it is when it holds no character below U+0020 other than the tab;
    a line feed or vertical tab is stored as a line break and any other
    of these characters as "_xHHHH_". *)
Theorem C8_deck_follows_records
    (slides_data : list slide_record) (template uuid : str) (fs : files) :
  exists colors,
    lookup_colors template = Some colors /\
    (forallb writable slides_data = true ->
     create_ppt_from_slides slides_data template uuid fs =
       Some (uuid ++ py ".pptx",
             <[path_join OUTPUT_DIR (uuid ++ py ".pptx") :=
                 Prs Inches_13_33 Inches_7_5
                     (map (rendered_slide colors) slides_data)]> fs)) /\
    (forallb writable slides_data = false ->
     create_ppt_from_slides slides_data template uuid fs = None) /\
    (forall slide_data,
       exists title_box content_box,
         rendered_slide colors slide_data =
           PSlide (Some (bg colors)) [title_box; content_box] /\
         map p_text (paragraphs title_box) =
           [[]; stored_text (title slide_data)] /\
         map font_color (tail (paragraphs title_box)) = [Some (text colors)] /\
         map p_text (tail (paragraphs content_box)) =
           map (fun point => ARROW :: SPACE :: stored_text (strip point))
               (points slide_data) /\
         map font_color (tail (paragraphs content_box)) =
           map (fun _ => Some (text colors)) (points slide_data)) /\
    (forall s, forallb plain s = true -> stored_text s = s) /\
    (forall c, plain c = false ->
       stored_char c = (if (c =? LF) || (c =? VT) then [VT]
                        else escape_control c)) /\
    (forall r, writable r = true <->
       existsb xml_refused (title r) = false /\
       forall point, In point (points r) ->
                     existsb xml_refused (strip point) = false).
Proof.
  exists (default modern_theme (theme_colors !! template)).
  set (colors := default modern_theme (theme_colors !! template)).
  split; [apply lookup_colors_default |].
  split; [apply create_ppt_rendered |].
  split; [apply create_ppt_raised |].
  split; [| split; [exact stored_text_plain | split]].
  - intros slide_data. eexists _, _. split; [reflexivity |].
    cbn [paragraphs tail map p_text font_color rendered_title].
    rewrite !map_map. cbn [p_text font_color rendered_bullet].
    split; [reflexivity |]. split; [reflexivity |]. split; reflexivity.
  - intros c. unfold plain, stored_char, LF, VT, TAB. intros H.
    apply orb_false_iff in H as [H9 H32].
    apply N.eqb_neq in H9. apply N.leb_gt in H32.
    destruct (N.eqb_spec c 10) as [E | H10]; [reflexivity |].
    destruct (N.eqb_spec c 11) as [E | H0]; [reflexivity |]. cbn [orb].
    destruct (N.leb_spec c 8) as [H8 | H8]; [reflexivity |].
    destruct (N.leb_spec 11 c) as [H11 | H11]; [| lia].
    destruct (N.leb_spec c 31) as [H31 | H31]; [reflexivity | lia].
  - intros r. unfold writable.
    rewrite andb_true_iff, negb_true_iff, forallb_forall.
    split; intros [Ht Hp]; (split; [exact Ht |]); intros point Hin;
      specialize (Hp point Hin); now apply negb_true_iff.
Qed.

Lemma C8_deck_follows_records_witness :
  forallb writable [Slide (py "T") [py " a"]] = true /\
  create_ppt_from_slides [Slide (py "T") [py " a"]] (py "dark") (py "id") ∅ =
    Some (py "id" ++ py ".pptx",
          <[path_join OUTPUT_DIR (py "id" ++ py ".pptx") :=
              Prs Inches_13_33 Inches_7_5
                  (map (rendered_slide
                          (Theme (RGBColor 15 15 15) (RGBColor 200 200 200)))
                       [Slide (py "T") [py " a"]])]> ∅).
Proof.
  split; [reflexivity |].
  destruct (C8_deck_follows_records [Slide (py "T") [py " a"]] (py "dark")
              (py "id") ∅) as (colors & Hc & Hok & _).
  assert (E : colors = Theme (RGBColor 15 15 15) (RGBColor 200 200 200)).
  { vm_compute in Hc. congruence. }
  rewrite <- E. apply Hok. reflexivity.
Defined.

(** ** The handlers *)

(** The outcomes of [generate_ppt_api]. *)
Lemma generate_ppt_cases (data : request_data) (uuid : str) (fs : files) :
  let text := default [] (text_field data) in
  let template := default (py "modern") (template_field data) in
  let records := parse_slides text 6 in
  generate_ppt_api data uuid fs =
    if forallb is_space text
    then Some (Response 400 [(py "success", JBool false);
                             (py "error", JString (py "Empty topic"))], fs)
    else match records with
         | [] => Some (Response 400
                         [(py "success", JBool false);
                          (py "error", JString (py "No valid slides found"))],
                       fs)
         | _ :: _ =>
             if forallb writable records
             then Some (Response 200
                          [(py "success", JBool true);
                           (py "file_path",
                            JString (generated_url (uuid ++ py ".pptx")));
                           (py "download_url",
                            JString (generated_url (uuid ++ py ".pptx")))],
                        <[path_join OUTPUT_DIR (uuid ++ py ".pptx") :=
                            rendered_deck
                              (default modern_theme (theme_colors !! template))
                              records]> fs)
             else None
         end.
Proof.
  intros text template records. unfold generate_ppt_api.
  fold text. fold template.
  pose proof (strip_empty_iff text) as Hws.
  rewrite parse_slides_strip. fold records.
  destruct (strip text) as [| c t] eqn:Et; cbn [truthy negb].
  - now rewrite (proj1 Hws eq_refl).
  - assert (Hsome : forallb is_space text = false).
    { destruct (forallb is_space text); [| reflexivity].
      now destruct Hws as [_ Hws]; specialize (Hws eq_refl). }
    rewrite Hsome. destruct records as [| r rs] eqn:Ep; [reflexivity |].
    rewrite create_ppt_eq.
    now destruct (forallb writable (r :: rs)).
Qed.

(** C6, as stated, fails: a text that is not blank and has a record is
    not answered with 200 when the record holds U+FFFF; the builder
    raises and the handler has no answer of its own. *)
Lemma C6_builder_raises :
  forallb is_space refused_text = false /\
  parse_slides refused_text 6 = [Slide (py "A" ++ [65535]) []] /\
  generate_ppt_api (Request (Some refused_text) None None None) (py "id") ∅ =
    None.
Proof. vm_compute. repeat split. Qed.

(** C6, amended: POST /generate-ppt answers 400 with "Empty topic" when
    the text is empty or all white space, 400 when the text parses to no
    record, and 200 with success, file_path and download_url when the
    builder accepts the records; it answers 200 exactly when the text has
    a character other than white space, has at least one record, and no
    title or stripped point of its first six records holds a character
    that the document library refuses.  With such a character the
    builder raises and the handler returns no answer of its own.  The
    handler parses the stripped text, which has the records of the text
    itself. *)
Theorem C6_generate_ppt (data : request_data) (uuid : str) (fs : files) :
  let text := default [] (text_field data) in
  let records := parse_slides text 6 in
  let answer := generate_ppt_api data uuid fs in
  (forallb is_space text = true ->
   answer = Some (Response 400 [(py "success", JBool false);
                                (py "error", JString (py "Empty topic"))],
                  fs)) /\
  (records = [] ->
   exists resp, answer = Some (resp, fs) /\ status resp = 400%Z) /\
  ((exists resp fs', answer = Some (resp, fs') /\ status resp = 200%Z) <->
   forallb is_space text = false /\ records <> [] /\
   forallb writable records = true) /\
  (forall resp fs',
     answer = Some (resp, fs') -> status resp = 200%Z ->
     body resp =
       [(py "success", JBool true);
        (py "file_path", JString (py "/generated/" ++ uuid ++ py ".pptx"));
        (py "download_url", JString (py "/generated/" ++ uuid ++ py ".pptx"))]) /\
  (forallb is_space text = false -> records <> [] ->
   forallb writable records = false -> answer = None).
Proof.
  intros text records answer.
  pose proof (generate_ppt_cases data uuid fs) as E.
  cbv zeta in E. fold text records answer in E.
  destruct (forallb is_space text) eqn:Hws.
  - rewrite E. split; [reflexivity |].
    split; [intros _; eexists; split; reflexivity |].
    split; [| split; [| discriminate]].
    + split; [| intros [H _]; discriminate H].
      intros (resp & fs' & H & Hs).
      assert (Hr : status resp = 400%Z) by (injection H as <- _; reflexivity).
      congruence.
    + intros resp fs' H Hs.
      assert (Hr : status resp = 400%Z) by (injection H as <- _; reflexivity).
      congruence.
  - destruct records as [| r rs] eqn:Ep.
    + rewrite E. split; [discriminate |].
      split; [intros _; eexists; split; reflexivity |].
      split; [| split; [| congruence]].
      * split; [| intros (_ & H & _); congruence].
        intros (resp & fs' & H & Hs).
        assert (Hr : status resp = 400%Z) by (injection H as <- _; reflexivity).
        congruence.
      * intros resp fs' H Hs.
        assert (Hr : status resp = 400%Z) by (injection H as <- _; reflexivity).
        congruence.
    + destruct (forallb writable (r :: rs)) eqn:Hw; rewrite E.
      * split; [discriminate |]. split; [discriminate |].
        split; [| split; [| discriminate]].
        -- split; [intros _; repeat split; discriminate |].
           intros _. eexists _, _. split; reflexivity.
        -- intros resp fs' H _.
           assert (Hr : body resp =
                     [(py "success", JBool true);
                      (py "file_path",
                       JString (generated_url (uuid ++ py ".pptx")));
                      (py "download_url",
                       JString (generated_url (uuid ++ py ".pptx")))])
             by (injection H as <- _; reflexivity).
           exact Hr.
      * split; [discriminate |]. split; [discriminate |].
        split; [| split; [| reflexivity]].
        -- split; [intros (resp & fs' & H & _); discriminate H |].
           intros (_ & _ & H); discriminate H.
        -- intros resp fs' H. discriminate H.
Qed.

Lemma C6_generate_ppt_witness :
  forallb is_space (py "  ") = true /\
  generate_ppt_api (Request (Some (py "  ")) None None None) (py "id") ∅ =
    Some (Response 400 [(py "success", JBool false);
                        (py "error", JString (py "Empty topic"))], ∅).
Proof.
  split; [reflexivity |].
  apply (proj1 (C6_generate_ppt (Request (Some (py "  ")) None None None)
                  (py "id") ∅)).
  reflexivity.
Defined.

(** The outcomes of [generate_auto_ppt_api]. *)
Lemma generate_auto_ppt_cases (model : str -> Z -> option str)
    (data : request_data) (uuid : str) (fs : files) :
  let topic := strip (default [] (topic_field data)) in
  let template := default (py "modern") (template_field data) in
  let slide_count := default 6%Z (slide_count_field data) in
  generate_auto_ppt_api model data uuid fs =
    match topic with
    | [] => Some (Response 400
                    [(py "success", JBool false);
                     (py "error", JString (py "No topic provided"))], fs)
    | _ :: _ =>
        match model topic slide_count with
        | None | Some [] =>
            Some (Response 500
                    [(py "success", JBool false);
                     (py "error", JString (py "AI generation failed"))], fs)
        | Some ai_text =>
            let records := parse_slides ai_text slide_count in
            match records with
            | [] => Some (Response 400
                            [(py "success", JBool false);
                             (py "error",
                              JString (py "AI did not return valid slides"))],
                          fs)
            | _ :: _ =>
                if forallb writable records
                then Some (Response 200
                             [(py "success", JBool true);
                              (py "file_path",
                               JString (generated_url (uuid ++ py ".pptx")));
                              (py "download_url",
                               JString (generated_url (uuid ++ py ".pptx")));
                              (py "slides_generated",
                               JInt (Z.of_nat (length records)))],
                           <[path_join OUTPUT_DIR (uuid ++ py ".pptx") :=
                               rendered_deck
                                 (default modern_theme
                                          (theme_colors !! template))
                                 records]> fs)
                else None
            end
        end
    end.
Proof.
  intros topic template slide_count.
  unfold generate_auto_ppt_api, generate_ppt_content.
  fold topic. fold template. fold slide_count.
  destruct topic as [| c t]; cbn [truthy negb]; [reflexivity |].
  destruct (model (c :: t) slide_count) as [[| a ai_text] |];
    [reflexivity | | reflexivity].
  cbv zeta.
  destruct (parse_slides (a :: ai_text) slide_count) as [| r rs];
    [reflexivity |].
  rewrite create_ppt_eq.
  now destruct (forallb writable (r :: rs)).
Qed.

(** C7, as stated, fails: with a topic, a reply of the external model
    that is not empty and has a record, the answer is not 200 when the
    record holds U+FFFF; the builder raises and the handler has no answer
    of its own. *)
Lemma C7_builder_raises :
  strip (py "Cats") <> [] /\
  refused_text <> [] /\
  parse_slides refused_text 6 = [Slide (py "A" ++ [65535]) []] /\
  generate_auto_ppt_api (fun _ _ => Some refused_text)
    (Request None (Some (py "Cats")) None None) (py "id") ∅ = None.
Proof.
  vm_compute. split; [discriminate |]. split; [discriminate |].
  split; reflexivity.
Qed.

(** C7, amended: POST /generate-auto-ppt answers 400 when the topic is
    empty, 500 when the external call gives no text, 400 when the text
    has no record, and, when the builder accepts the records, 200 with
    slides_generated the number of records parsed with the requested
    slide count, which is 6 when the request has none; when a title or a
    stripped point of these records holds a character that the document
    library refuses, the builder raises and the handler returns no
    answer of its own.  With slide_count 3 and a reply that holds five
    records, the first three of which the builder accepts, it reports
    3. *)
Theorem C7_generate_auto_ppt (model : str -> Z -> option str)
    (data : request_data) (uuid : str) (fs : files) :
  let topic := strip (default [] (topic_field data)) in
  let slide_count := default 6%Z (slide_count_field data) in
  let answer := generate_auto_ppt_api model data uuid fs in
  (topic = [] ->
   exists resp, answer = Some (resp, fs) /\ status resp = 400%Z) /\
  (topic <> [] ->
   model topic slide_count = None \/ model topic slide_count = Some [] ->
   exists resp, answer = Some (resp, fs) /\ status resp = 500%Z) /\
  (forall ai_text,
     topic <> [] -> model topic slide_count = Some ai_text ->
     ai_text <> [] ->
     let records := parse_slides ai_text slide_count in
     (records = [] ->
      exists resp, answer = Some (resp, fs) /\ status resp = 400%Z) /\
     (records <> [] -> forallb writable records = true ->
      exists fs',
        answer =
          Some (Response 200
                  [(py "success", JBool true);
                   (py "file_path",
                    JString (py "/generated/" ++ uuid ++ py ".pptx"));
                   (py "download_url",
                    JString (py "/generated/" ++ uuid ++ py ".pptx"));
                   (py "slides_generated",
                    JInt (Z.of_nat (length records)))], fs')) /\
     (records <> [] -> forallb writable records = false ->
      answer = None)) /\
  (slide_count_field data = None -> slide_count = 6%Z) /\
  (forall ai_text,
     topic <> [] -> slide_count_field data = Some 3%Z ->
     model topic 3%Z = Some ai_text ->
     length (parse_slides ai_text (Z.of_nat (count_markers ai_text))) = 5%nat ->
     forallb writable (parse_slides ai_text 3) = true ->
     exists resp fs',
       answer = Some (resp, fs') /\
       status resp = 200%Z /\
       In (py "slides_generated", JInt 3) (body resp)).
Proof.
  intros topic slide_count answer.
  pose proof (generate_auto_ppt_cases model data uuid fs) as E.
  cbv zeta in E. fold topic slide_count answer in E.
  assert (Hreply : forall ai_text,
    topic <> [] -> model topic slide_count = Some ai_text -> ai_text <> [] ->
    answer =
      match parse_slides ai_text slide_count with
      | [] => Some (Response 400
                      [(py "success", JBool false);
                       (py "error",
                        JString (py "AI did not return valid slides"))], fs)
      | _ :: _ =>
          if forallb writable (parse_slides ai_text slide_count)
          then Some (Response 200
                       [(py "success", JBool true);
                        (py "file_path",
                         JString (generated_url (uuid ++ py ".pptx")));
                        (py "download_url",
                         JString (generated_url (uuid ++ py ".pptx")));
                        (py "slides_generated",
                         JInt (Z.of_nat
                                 (length (parse_slides ai_text slide_count))))],
                     <[path_join OUTPUT_DIR (uuid ++ py ".pptx") :=
                         rendered_deck
                           (default modern_theme
                              (theme_colors !!
                                 default (py "modern") (template_field data)))
                           (parse_slides ai_text slide_count)]> fs)
          else None
      end).
  { intros ai_text Ht Hm Hne. rewrite E.
    destruct topic as [| c t]; [congruence |]. rewrite Hm.
    destruct ai_text as [| a ai_text]; [congruence |]. reflexivity. }
  split; [| split; [| split; [| split]]].
  - intros Ht. rewrite E, Ht. eexists. split; reflexivity.
  - intros Ht Hm. rewrite E. destruct topic as [| c t]; [congruence |].
    destruct Hm as [-> | ->]; eexists; split; reflexivity.
  - intros ai_text Ht Hm Hne records.
    rewrite (Hreply ai_text Ht Hm Hne). fold records.
    destruct records as [| r rs].
    + split; [intros _; eexists; split; reflexivity |].
      split; congruence.
    + split; [discriminate |].
      split; intros _ ->; [eexists |]; reflexivity.
  - unfold slide_count. now intros ->.
  - intros ai_text Htopic Hcount Hmodel Hfive Hw.
    assert (Hc : slide_count = 3%Z) by (unfold slide_count; now rewrite Hcount).
    assert (Hthree : length (parse_slides ai_text 3) = 3%nat).
    { rewrite parse_slides_cut, length_take, Hfive by lia. reflexivity. }
    assert (Hne : ai_text <> []).
    { intros ->. vm_compute in Hfive. discriminate. }
    rewrite Hc in Hreply. rewrite (Hreply ai_text Htopic Hmodel Hne), Hw.
    destruct (parse_slides ai_text 3) as [| r rs] eqn:Ep; [discriminate |].
    eexists _, _. split; [reflexivity |]. cbn [status body].
    split; [reflexivity |]. rewrite Hthree. simpl. tauto.
Qed.

Lemma C7_generate_auto_ppt_witness :
  exists resp fs',
    generate_auto_ppt_api (fun _ _ => Some five_segments)
      (Request None (Some (py "Cats")) None (Some 3%Z)) (py "id") ∅ =
      Some (resp, fs') /\
    status resp = 200%Z /\
    In (py "slides_generated", JInt 3) (body resp).
Proof.
  apply (proj2 (proj2 (proj2 (proj2
           (C7_generate_auto_ppt (fun _ _ => Some five_segments)
              (Request None (Some (py "Cats")) None (Some 3%Z)) (py "id") ∅))))
           five_segments).
  - vm_compute. discriminate.
  - reflexivity.
  - reflexivity.
  - vm_compute. reflexivity.
  - vm_compute. reflexivity.
Defined.

(** * Further properties *)

(** ** One segment for every marker *)

Lemma marker_at_first s c : marker_at (c :: s) = true -> c = LETTER_S.
Proof.
  intros H. apply marker_at_starts in H. simpl in H.
  apply andb_true_iff in H as [H _]. now apply N.eqb_eq in H.
Qed.

Lemma count_markers_skip pre s :
  ~ In LETTER_S pre -> count_markers (pre ++ s) = count_markers s.
Proof.
  induction pre as [| c pre IH]; intros H; [reflexivity |].
  cbn [app count_markers].
  destruct (marker_at (c :: pre ++ s)) eqn:E.
  - apply marker_at_first in E. subst c. exfalso. apply H. now left.
  - rewrite IH; [reflexivity |]. intros Hin. apply H. now right.
Qed.

Lemma count_markers_segment_end b :
  count_markers (segment_end b) = count_markers b.
Proof.
  induction b as [| c b IH]; cbn [segment_end].
  - destruct (segment_stop []); reflexivity.
  - unfold segment_stop at 1.
    destruct (marker_end (c :: b)) eqn:E; [reflexivity |].
    destruct (at_end (c :: b)); [reflexivity |].
    rewrite IH. cbn [count_markers]. rewrite marker_at_end, E. reflexivity.
Qed.

Lemma class_not_S (cls : char -> bool) l :
  cls LETTER_S = false -> forallb cls l = true -> ~ In LETTER_S l.
Proof.
  intros Hc Hl Hin. rewrite (forallb_In cls l _ Hl Hin) in Hc. discriminate.
Qed.

(** Between the start of a match and its end there is no other marker. *)
Lemma scan_slide_count s st' :
  scan_slide s = Some st' -> count_markers s = S (count_markers (rest st')).
Proof.
  unfold scan_slide. destruct (marker_end s) as [s4 |] eqn:Em; [| discriminate].
  intros [= <-]. cbn [rest]. rewrite count_markers_segment_end.
  pose proof Em as Hshape.
  apply marker_end_shape in Hshape as (w1 & ds & w2 & -> & H1 & _ & Hd & H2).
  rewrite (lstrip_by_decompose is_space s4) at 1.
  set (b := lstrip_by is_space s4).
  pose proof (run_inside is_space s4) as H3.
  set (w3 := take (run is_space s4) s4) in *.
  change (py "Slide" ++ w1 ++ ds ++ w2 ++ COLON :: w3 ++ b)
    with (LETTER_S :: (py "lide" ++ w1 ++ ds ++ w2 ++ COLON :: w3 ++ b)).
  cbn [count_markers].
  assert (Hm : marker_at (LETTER_S :: py "lide" ++ w1 ++ ds ++ w2 ++ COLON :: w3 ++ b)
               = true).
  { rewrite marker_at_end.
    change (LETTER_S :: py "lide" ++ w1 ++ ds ++ w2 ++ COLON :: w3 ++ b)
      with (py "Slide" ++ w1 ++ ds ++ w2 ++ COLON :: (w3 ++ b)).
    unfold w3, b. rewrite <- lstrip_by_decompose. now rewrite Em. }
  rewrite Hm. f_equal.
  replace (py "lide" ++ w1 ++ ds ++ w2 ++ COLON :: w3 ++ b)
    with ((py "lide" ++ w1 ++ ds ++ w2 ++ COLON :: w3) ++ b)
    by (now rewrite <- !app_assoc).
  apply count_markers_skip.
  rewrite !in_app_iff. cbn [In]. rewrite !in_app_iff || idtac.
  intros [H | [H | [H | [H | [H | H]]]]].
  - vm_compute in H. intuition discriminate.
  - revert H. now apply (class_not_S is_space).
  - revert H. now apply (class_not_S is_digit).
  - revert H. now apply (class_not_S is_space).
  - discriminate H.
  - revert H. now apply (class_not_S is_space).
Qed.

Lemma findall_length_fuel n : forall s,
  (length s < n)%nat ->
  length (findall slide_pattern s) = count_markers s.
Proof.
  induction n as [| n IH]; intros s Hn; [lia |].
  rewrite findall_unfold.
  destruct (scan_slide s) as [st' |] eqn:E.
  - rewrite (scan_slide_count _ _ E). cbn [length]. f_equal.
    apply IH. apply scan_slide_shorter in E. lia.
  - assert (Hm : marker_at s = false).
    { rewrite marker_at_end. unfold scan_slide in E.
      destruct (marker_end s); [discriminate | reflexivity]. }
    destruct s as [| c s]; cbn [count_markers]; rewrite Hm; [reflexivity |].
    apply IH. simpl in Hn. lia.
Qed.

Lemma findall_length text :
  length (findall slide_pattern text) = count_markers text.
Proof. apply (findall_length_fuel (S (length text))). lia. Qed.

(** ** Lines *)

Lemma split_nonempty sep s : split sep s <> [].
Proof.
  destruct s as [| c s]; simpl; [discriminate |].
  destruct (c =? sep); [discriminate |].
  destruct (split sep s); discriminate.
Qed.

(** No line holds the separator. *)
Lemma split_no_sep sep s l : In l (split sep s) -> ~ In sep l.
Proof.
  revert l. induction s as [| c s IH]; intros l; simpl.
  - intros [<- | []]. intros [].
  - destruct (c =? sep) eqn:Ec.
    + intros [<- | H]; [intros [] | now apply IH].
    + destruct (split sep s) as [| l0 ls] eqn:E.
      * intros [<- | []]. intros [-> | []]. now rewrite N.eqb_refl in Ec.
      * intros [<- | H].
        -- intros [-> | H]; [now rewrite N.eqb_refl in Ec |].
           revert H. apply IH. now left.
        -- apply IH. now right.
Qed.

(** A text whose lines are all inside a class that holds the separator is
    inside the class. *)
Lemma split_inside (cls : char -> bool) sep s :
  cls sep = true ->
  (forall l, In l (split sep s) -> forallb cls l = true) ->
  forallb cls s = true.
Proof.
  intros Hsep. induction s as [| c s IH]; simpl; [reflexivity |].
  destruct (c =? sep) eqn:Ec.
  - apply N.eqb_eq in Ec. subst c. intros H. rewrite Hsep. simpl.
    apply IH. intros l Hl. apply H. now right.
  - destruct (split sep s) as [| l0 ls] eqn:E.
    + now destruct (split_nonempty sep s).
    + intros H. pose proof (H _ (or_introl eq_refl)) as H0. simpl in H0.
      apply andb_true_iff in H0 as [Hc H0]. rewrite Hc. simpl.
      apply IH. intros l [<- | Hl]; [exact H0 | apply H; now right].
Qed.

Lemma nonblank_dec l : {nonblank l} + {~ nonblank l}.
Proof. unfold nonblank. destruct (truthy (strip l)); [left | right]; congruence. Qed.

Lemma not_nonblank_space l : ~ nonblank l -> forallb is_space l = true.
Proof.
  unfold nonblank. intros H. apply strip_empty_iff.
  destruct (strip l); [reflexivity | now destruct H].
Qed.

Lemma strip_head_not_space s c t : strip s = c :: t -> is_space c = false.
Proof.
  intros E. apply (strip_by_head is_space s). unfold strip in E. now rewrite E.
Qed.

(** A segment gives no record exactly when it is white space. *)
Lemma segment_record_nil_iff s :
  segment_record s = [] <-> forallb is_space s = true.
Proof.
  unfold segment_record, segment_lines. fold nonblank. split.
  - intros H.
    assert (Hf : filter nonblank (split LF (strip s)) = []).
    { destruct (filter nonblank (split LF (strip s))); [reflexivity |].
      discriminate H. }
    apply strip_empty_iff.
    destruct (strip s) as [| c t] eqn:E; [reflexivity |].
    assert (Hall : forallb is_space (c :: t) = true).
    { apply (split_inside is_space LF); [reflexivity |].
      intros l Hl. apply not_nonblank_space. intros Hnb.
      assert (Hin : l ∈ filter nonblank (split LF (c :: t))).
      { apply list_elem_of_filter. split; [exact Hnb |].
        now apply list_elem_of_In. }
      rewrite Hf in Hin. now apply not_elem_of_nil in Hin. }
    apply strip_head_not_space in E. simpl in Hall.
    rewrite E in Hall. discriminate.
  - intros H. apply strip_empty_iff in H. rewrite H. reflexivity.
Qed.

(** ** Records and their lines *)

Lemma parse_slides_record_lines text max_slides r :
  In r (parse_slides text max_slides) ->
  exists seg l ls,
    In seg (findall slide_pattern text) /\
    filter nonblank (split LF (strip seg)) = l :: ls /\
    title r = strip_chars glyphs l /\
    points r = map (strip_chars glyphs) ls.
Proof.
  intros H. rewrite parse_slides_eq in H.
  apply list_elem_of_In, slice_to_sublist, list_elem_of_In in H.
  apply in_flat_map in H as (seg & Hseg & Hr).
  destruct (segment_record_lines _ _ Hr) as (l & ls & H1 & H2 & H3).
  now exists seg, l, ls.
Qed.

Lemma strip_by_empty_iff (cls : char -> bool) s :
  strip_by cls s = [] <-> forallb cls s = true.
Proof.
  split.
  - intros H.
    destruct (strip_by_decompose cls s) as (pre & post & E & Hpre & Hpost).
    rewrite H in E. rewrite E, forallb_app. simpl. now rewrite Hpre, Hpost.
  - intros H. unfold strip_by.
    now rewrite (lstrip_by_all _ _ H).
Qed.

Lemma strip_by_subset (cls : char -> bool) s c :
  In c (strip_by cls s) -> In c s.
Proof.
  destruct (strip_by_decompose cls s) as (pre & post & E & _ & _).
  intros H. rewrite E. apply in_or_app. right. apply in_or_app. now left.
Qed.

Lemma kept_line_in_split seg l0 (kept : list str) :
  filter nonblank (split LF (strip seg)) = kept ->
  In l0 kept -> In l0 (split LF (strip seg)) /\ nonblank l0.
Proof.
  intros <- H. apply list_elem_of_In, list_elem_of_filter in H as [Hnb H].
  split; [now apply list_elem_of_In | exact Hnb].
Qed.

(** Every title and every point is a stripped line of its segment. *)
Lemma record_text_line text max_slides r x :
  In r (parse_slides text max_slides) -> In x (title r :: points r) ->
  exists seg l0,
    In seg (findall slide_pattern text) /\
    In l0 (split LF (strip seg)) /\ nonblank l0 /\
    x = strip_chars glyphs l0.
Proof.
  intros Hr Hx.
  destruct (parse_slides_record_lines _ _ _ Hr) as (seg & l & ls & Hseg & Hf & Ht & Hp).
  assert (Hl0 : exists l0, In l0 (l :: ls) /\ x = strip_chars glyphs l0).
  { destruct Hx as [<- | Hx].
    - exists l. split; [now left | exact Ht].
    - rewrite Hp in Hx. apply in_map_iff in Hx as (l0 & <- & Hl0).
      exists l0. split; [now right | reflexivity]. }
  destruct Hl0 as (l0 & Hl0 & ->).
  destruct (kept_line_in_split _ _ _ Hf Hl0) as [Hin Hnb].
  now exists seg, l0.
Qed.

(** ** Text after a segment *)

Lemma marker_body_not_S w1 ds w2 :
  forallb is_space w1 = true -> forallb is_digit ds = true ->
  forallb is_space w2 = true ->
  ~ In LETTER_S (py "lide" ++ w1 ++ ds ++ w2).
Proof.
  intros H1 Hd H2. rewrite !in_app_iff. intros [H | [H | [H | H]]].
  - vm_compute in H. intuition discriminate.
  - revert H. now apply (class_not_S is_space).
  - revert H. now apply (class_not_S is_digit).
  - revert H. now apply (class_not_S is_space).
Qed.

(** A marker that follows the text neither makes nor breaks a marker that
    starts inside the text. *)
Lemma marker_end_app_marker s b :
  s <> [] -> marker_at b = true ->
  marker_end (s ++ b) = (fun s4 => s4 ++ b) <$> marker_end s.
Proof.
  intros Hs Hb.
  assert (Hfwd : forall s4, marker_end s = Some s4 ->
                            marker_end (s ++ b) = Some (s4 ++ b)).
  { intros s4 H. apply marker_end_shape in H as (w1 & ds & w2 & -> & H).
    apply marker_end_shape. exists w1, ds, w2. split; [| exact H].
    now rewrite <- !app_assoc. }
  destruct (marker_end s) as [s4 |] eqn:Em; simpl; [now apply Hfwd |].
  destruct (marker_end (s ++ b)) as [s4' |] eqn:Em'; [| reflexivity].
  exfalso. apply marker_end_shape in Em' as (w1 & ds & w2 & E & H1 & Hne & Hd & H2).
  destruct b as [| b0 b]; [discriminate Hb |].
  apply marker_at_first in Hb. subst b0.
  rewrite !app_assoc in E. apply app_eq_app in E as (l & [[E1 E2] | [E1 E2]]).
  - destruct l as [| c l].
    + simpl in E2. discriminate E2.
    + injection E2 as Ec E2. subst c s4'.
      assert (Hsome : marker_end s = Some l); [| congruence].
      apply marker_end_shape. exists w1, ds, w2.
      split; [| now repeat split]. rewrite E1. now rewrite <- !app_assoc.
  - destruct l as [| c l]; [discriminate E2 |].
    injection E2 as Ec E2. subst c.
    destruct s as [| x s]; [congruence |].
    rewrite <- !app_assoc in E1.
    change (py "Slide" ++ w1 ++ ds ++ w2)
      with (LETTER_S :: (py "lide" ++ w1 ++ ds ++ w2)) in E1.
    cbn [app] in E1.
    assert (E1' : py "lide" ++ w1 ++ ds ++ w2 = s ++ LETTER_S :: l)
      by congruence.
    apply (marker_body_not_S w1 ds w2 H1 Hd H2).
    rewrite E1'. apply in_or_app. right. now left.
Qed.

Lemma marker_at_stop b : marker_at b = true -> segment_stop b = true.
Proof.
  rewrite marker_at_end. unfold segment_stop.
  destruct (marker_end b); [reflexivity | discriminate].
Qed.

Lemma segment_end_stop b : segment_stop b = true -> segment_end b = b.
Proof. intros H. destruct b; cbn [segment_end]; now rewrite H. Qed.

(** Where a segment ends when a marker follows the text: at the same
    marker as before, or at the marker that follows. *)
Lemma segment_end_app_marker p b :
  marker_at b = true ->
  (marker_at (segment_end p) = true /\
   segment_end (p ++ b) = segment_end p ++ b) \/
  (forallb is_space (segment_end p) = true /\ segment_end (p ++ b) = b).
Proof.
  intros Hb. pose proof (segment_end_stop _ (marker_at_stop _ Hb)) as Hstop.
  assert (Hne : b <> []) by (intros ->; discriminate Hb).
  induction p as [| c p IH].
  - right. split; [reflexivity | exact Hstop].
  - cbn [segment_end app]. unfold segment_stop.
    change (c :: p ++ b) with ((c :: p) ++ b).
    rewrite (marker_end_app_marker (c :: p) b) by (discriminate || exact Hb).
    destruct (marker_end (c :: p)) as [s4 |] eqn:Em;
      cbn [fmap option_fmap option_map].
    + left. split; [| reflexivity]. rewrite marker_at_end. now rewrite Em.
    + assert (Ee' : at_end ((c :: p) ++ b) = false).
      { destruct p as [| c' p]; [| reflexivity].
        destruct b; [congruence | reflexivity]. }
      rewrite Ee'. destruct (at_end (c :: p)) eqn:Ee.
      * right. destruct p as [| c' p]; [| discriminate Ee].
        cbn [at_end] in Ee. apply N.eqb_eq in Ee. subst c.
        split; [reflexivity | exact Hstop].
      * exact IH.
Qed.

Lemma findall_nil : findall slide_pattern [] = [].
Proof. reflexivity. Qed.

(** The records of a text followed by a marker and more text are the
    records of the text, then those of the rest. *)
Lemma records_app_marker b :
  marker_at b = true ->
  forall n s, (length s < n)%nat ->
    flat_map segment_record (findall slide_pattern (s ++ b)) =
    flat_map segment_record (findall slide_pattern s) ++
    flat_map segment_record (findall slide_pattern b).
Proof.
  intros Hb. pose proof (segment_end_stop _ (marker_at_stop _ Hb)) as Hstop.
  induction n as [| n IH]; intros s Hn; [lia |].
  destruct s as [| c s]; [reflexivity |].
  rewrite (findall_unfold ((c :: s) ++ b)), (findall_unfold (c :: s)).
  unfold scan_slide.
  rewrite (marker_end_app_marker (c :: s) b) by (discriminate || exact Hb).
  destruct (marker_end (c :: s)) as [s4 |] eqn:Em;
    cbn [fmap option_fmap option_map].
  - apply marker_end_shorter in Em.
    pose proof (lstrip_by_length is_space s4) as Hlen4.
    rewrite lstrip_by_app.
    destruct (lstrip_by is_space s4) as [| x p0] eqn:Ep.
    + assert (Hlb : lstrip_by is_space b = b).
      { destruct b as [| b0 b']; [reflexivity |]. cbn [lstrip_by].
        apply marker_at_first in Hb. subst b0. reflexivity. }
      rewrite Hlb, Hstop. cbn [default group1 rest flat_map].
      rewrite Nat.sub_diag. reflexivity.
    + set (p := x :: p0) in *.
      pose proof (segment_end_suffix p) as Hsuf.
      pose proof (suffix_length _ _ Hsuf) as Hlen.
      pose proof (take_before_suffix _ _ Hsuf) as Hcap.
      cbn [default group1 rest flat_map].
      destruct (segment_end_app_marker p b Hb) as [[Hm He] | [He1 He2]].
      * rewrite He. rewrite IH by lia. rewrite app_assoc. f_equal. f_equal.
        f_equal. rewrite !length_app.
        replace (length p + length b - (length (segment_end p) + length b))%nat
          with (length p - length (segment_end p))%nat by lia.
        apply take_app_le. lia.
      * rewrite He2, (space_no_records _ He1), app_nil_r. f_equal.
        rewrite length_app.
        replace (length p + length b - length b)%nat with (length p) by lia.
        rewrite take_app_length. rewrite Hcap at 1.
        now apply segment_record_app_space.
  - apply IH. simpl in Hn. lia.
Qed.

(** ** Properties of [parse_slides] *)

Lemma parse_all_eq text :
  parse_all text = flat_map segment_record (findall slide_pattern text).
Proof.
  unfold parse_all. rewrite parse_slides_eq, slice_to_nonneg by lia.
  rewrite Nat2Z.id. apply take_ge, parsed_at_most_markers.
Qed.

Lemma parse_slides_take text max_slides :
  (0 <= max_slides)%Z ->
  parse_slides text max_slides = take (Z.to_nat max_slides) (parse_all text).
Proof. apply parse_slides_cut. Qed.

(** X1: white space before and after the text does not change the
    records; in particular the handler, which strips the text first,
    gets the records of the text as it was sent. *)
Theorem X1_outer_space_ignored (before text after : str) (max_slides : Z) :
  forallb is_space before = true -> forallb is_space after = true ->
  parse_slides (before ++ text ++ after) max_slides =
    parse_slides text max_slides /\
  parse_slides (strip text) max_slides = parse_slides text max_slides.
Proof.
  intros Hb Ha. split; [| apply parse_slides_strip].
  rewrite !parse_slides_eq. f_equal.
  rewrite findall_skip by now apply space_marker_before.
  apply (records_app_space after Ha (S (length text))). lia.
Qed.

Lemma X1_outer_space_ignored_witness :
  parse_slides ([LF; SPACE] ++ py "Slide 1: A" ++ [TAB; LF; LF]) 6 =
    parse_slides (py "Slide 1: A") 6 /\
  parse_slides (strip (py "Slide 1: A")) 6 = parse_slides (py "Slide 1: A") 6.
Proof.
  apply (X1_outer_space_ignored [LF; SPACE] (py "Slide 1: A") [TAB; LF; LF] 6%Z);
    reflexivity.
Defined.

(** X2: [re.findall] returns exactly one segment for every marker of the
    text: no marker is skipped and none opens two segments. *)
Theorem X2_one_segment_per_marker (text : str) :
  length (findall slide_pattern text) = count_markers text.
Proof. apply findall_length. Qed.

Lemma segment_record_length s :
  length (segment_record s) = if forallb is_space s then 0%nat else 1%nat.
Proof.
  destruct (forallb is_space s) eqn:E.
  - apply segment_record_nil_iff in E. now rewrite E.
  - destruct (segment_record s) as [| r rs] eqn:Er.
    + apply segment_record_nil_iff in Er. congruence.
    + unfold segment_record in Er. destruct (segment_lines s); [discriminate |].
      now injection Er as <- <-.
Qed.

(** X3: a segment gives one record unless it is empty or all white space,
    and then it gives none: the records and the blank segments together
    are as many as the markers. *)
Theorem X3_records_and_blank_segments (text : str) :
  (forall seg, segment_record seg = [] <-> forallb is_space seg = true) /\
  (length (parse_all text) +
   length (List.filter (forallb is_space) (findall slide_pattern text))
   = count_markers text)%nat.
Proof.
  split; [exact segment_record_nil_iff |].
  rewrite parse_all_eq, <- findall_length.
  induction (findall slide_pattern text) as [| seg segs IH]; [reflexivity |].
  cbn [flat_map List.filter]. rewrite length_app, segment_record_length.
  destruct (forallb is_space seg); cbn [length]; lia.
Qed.

(** X4: a text followed by a marker and more text has the records of the
    text followed by the records of the rest: what follows the next marker
    never changes the records before it. *)
Theorem X4_records_of_concatenation (a b : str) (max_slides : Z) :
  marker_at b = true ->
  parse_all (a ++ b) = parse_all a ++ parse_all b /\
  ((0 <= max_slides)%Z ->
   parse_slides (a ++ b) max_slides =
     take (Z.to_nat max_slides) (parse_all a ++ parse_all b)).
Proof.
  intros Hb.
  assert (E : parse_all (a ++ b) = parse_all a ++ parse_all b).
  { rewrite !parse_all_eq.
    apply (records_app_marker b Hb (S (length a))). lia. }
  split; [exact E |].
  intros Hm. now rewrite parse_slides_take, E.
Qed.

Lemma X4_records_of_concatenation_witness :
  parse_all (nl (py "Slide 1: A") (py "- x") ++ py "Slide 2: B") =
    parse_all (nl (py "Slide 1: A") (py "- x")) ++ parse_all (py "Slide 2: B") /\
  ((0 <= 1)%Z ->
   parse_slides (nl (py "Slide 1: A") (py "- x") ++ py "Slide 2: B") 1 =
     take (Z.to_nat 1)
          (parse_all (nl (py "Slide 1: A") (py "- x")) ++
           parse_all (py "Slide 2: B"))).
Proof.
  apply (X4_records_of_concatenation (nl (py "Slide 1: A") (py "- x"))
           (py "Slide 2: B") 1%Z).
  reflexivity.
Defined.

(** X5: the number of a marker and the white space inside and right
    after it are not used: two markers followed, after white space, by the
    same text give the same records, whatever text comes before them. *)
Theorem X5_marker_number_ignored (a s1 s2 t1 t2 : str) (max_slides : Z) :
  marker_end s1 = Some t1 -> marker_end s2 = Some t2 ->
  lstrip_by is_space t1 = lstrip_by is_space t2 ->
  parse_slides (a ++ s1) max_slides = parse_slides (a ++ s2) max_slides.
Proof.
  intros H1 H2 Ht. rewrite !parse_slides_eq. f_equal.
  assert (Hm1 : marker_at s1 = true) by (rewrite marker_at_end; now rewrite H1).
  assert (Hm2 : marker_at s2 = true) by (rewrite marker_at_end; now rewrite H2).
  rewrite (records_app_marker s1 Hm1 (S (length a))) by lia.
  rewrite (records_app_marker s2 Hm2 (S (length a))) by lia.
  f_equal. rewrite (findall_unfold s1), (findall_unfold s2).
  unfold scan_slide. now rewrite H1, H2, Ht.
Qed.

Lemma X5_marker_number_ignored_witness :
  parse_slides (py "Slide 1: A " ++ py "Slide 2: B") 6 =
  parse_slides (py "Slide 1: A " ++ py "Slide   77 :B") 6.
Proof.
  apply (X5_marker_number_ignored (py "Slide 1: A ") (py "Slide 2: B")
           (py "Slide   77 :B") (py " B") (py "B") 6%Z); reflexivity.
Defined.

(** X6: no title and no point holds a newline, and none starts or ends
    with a space, a hyphen, a bullet dot or a newline. *)
Theorem X6_record_texts_are_clean
    (text : str) (max_slides : Z) (r : slide_record) (x : str) :
  In r (parse_slides text max_slides) -> In x (title r :: points r) ->
  ~ In LF x /\
  match head x with Some c => is_glyph c = false | None => True end /\
  match last x with Some c => is_glyph c = false | None => True end.
Proof.
  intros Hr Hx.
  destruct (record_text_line _ _ _ _ Hr Hx) as (seg & l0 & _ & Hl0 & _ & ->).
  unfold strip_chars. fold is_glyph. split; [| split].
  - intros H. apply strip_by_subset in H. revert H. eapply split_no_sep, Hl0.
  - destruct (head (strip_by is_glyph l0)) as [c |] eqn:E; [| exact I].
    eapply strip_by_head, E.
  - destruct (last (strip_by is_glyph l0)) as [c |] eqn:E; [| exact I].
    eapply strip_by_last, E.
Qed.

Lemma X6_record_texts_are_clean_witness :
  ~ In LF (py "point a") /\
  match head (py "point a") with Some c => is_glyph c = false | None => True end /\
  match last (py "point a") with Some c => is_glyph c = false | None => True end.
Proof.
  apply (X6_record_texts_are_clean scenario 6%Z
           (Slide (py "Intro") [py "point a"; py "point b"]) (py "point a")).
  - vm_compute. left. reflexivity.
  - right. left. reflexivity.
Defined.

(** X7: every record comes from a segment of the text of which it is
    the only record; its title is the first line of that segment that is
    not blank, stripped, and it is the empty string exactly when that
    line consists only of spaces, hyphens and bullet dots; a line with
    any other character gives a title that is not empty. *)
Theorem X7_when_the_title_is_empty
    (text : str) (max_slides : Z) (r : slide_record) :
  In r (parse_slides text max_slides) ->
  exists seg l ls,
    In seg (findall slide_pattern text) /\
    segment_record seg = [r] /\
    filter nonblank (split LF (strip seg)) = l :: ls /\
    nonblank l /\
    title r = strip_chars glyphs l /\
    points r = map (strip_chars glyphs) ls /\
    (title r = [] <-> forallb is_glyph l = true).
Proof.
  intros Hr. rewrite parse_slides_eq in Hr.
  apply list_elem_of_In, slice_to_sublist, list_elem_of_In in Hr.
  apply in_flat_map in Hr as (seg & Hseg & Hr).
  destruct (segment_record_lines _ _ Hr) as (l & ls & Hf & Ht & Hp).
  exists seg, l, ls. split; [exact Hseg |]. split.
  { revert Hr. unfold segment_record.
    destruct (segment_lines seg) as [| l0 ls0]; [intros [] |].
    now intros [<- | []]. }
  split; [exact Hf |]. split.
  - now destruct (kept_line_in_split _ _ _ Hf (or_introl eq_refl)).
  - split; [exact Ht |]. split; [exact Hp |].
    rewrite Ht. unfold strip_chars. fold is_glyph. apply strip_by_empty_iff.
Qed.

Lemma X7_when_the_title_is_empty_witness :
  exists seg l ls,
    In seg (findall slide_pattern (py "Slide 1: -")) /\
    segment_record seg = [Slide [] []] /\
    filter nonblank (split LF (strip seg)) = l :: ls /\
    nonblank l /\
    title (Slide [] []) = strip_chars glyphs l /\
    points (Slide [] []) = map (strip_chars glyphs) ls /\
    (title (Slide [] []) = [] <-> forallb is_glyph l = true).
Proof.
  apply (X7_when_the_title_is_empty (py "Slide 1: -") 6%Z (Slide [] [])).
  vm_compute. left. reflexivity.
Defined.

(** X8: a negative [max_slides] counts from the end, as a Python slice
    does: [parse_slides] then returns the records of the text without the
    last [-max_slides] of them, and none when there are not more. *)
Theorem X8_negative_cut (text : str) (max_slides : Z) :
  (max_slides < 0)%Z ->
  parse_slides text max_slides =
    take (length (parse_all text) - Z.to_nat (- max_slides)) (parse_all text) /\
  length (parse_slides text max_slides) =
    (length (parse_all text) - Z.to_nat (- max_slides))%nat.
Proof.
  intros H.
  assert (E : parse_slides text max_slides =
              take (length (parse_all text) - Z.to_nat (- max_slides))
                   (parse_all text)).
  { rewrite parse_all_eq, parse_slides_eq. unfold slice_to.
    apply Z.ltb_lt in H as Hb. rewrite Hb. f_equal. lia. }
  split; [exact E |]. rewrite E, length_take. lia.
Qed.

Lemma X8_negative_cut_witness :
  parse_slides five_segments (-2) =
    take (length (parse_all five_segments) - Z.to_nat (- (-2)))
         (parse_all five_segments) /\
  length (parse_slides five_segments (-2)) =
    (length (parse_all five_segments) - Z.to_nat (- (-2)))%nat.
Proof. apply (X8_negative_cut five_segments (-2)%Z). lia. Defined.

(** ** Properties of the builder *)

Lemma path_join_output_dir (b : str) :
  head b <> Some 47 -> path_join OUTPUT_DIR b = py "generated/" ++ b.
Proof.
  intros H. destruct b as [| c b]; [reflexivity |].
  destruct (N.eq_dec c 47) as [-> | Hc]; [now destruct H |].
  unfold path_join.
  destruct c as [| p]; [reflexivity |].
  repeat (destruct p as [p | p |]; try reflexivity).
  now destruct Hc.
Qed.

Lemma head_app_cons (u : str) c (t : str) x :
  head u <> Some x -> c <> x -> head (u ++ c :: t) <> Some x.
Proof. destruct u as [| y u]; simpl; congruence. Qed.

Lemma writable_false r :
  writable r = false <->
  existsb xml_refused (title r) = true \/
  exists point, In point (points r) /\
                existsb xml_refused (strip point) = true.
Proof.
  unfold writable. rewrite andb_false_iff, negb_false_iff. split.
  - intros [H | H]; [now left | right].
    induction (points r) as [| b bs IH]; [discriminate H |].
    cbn [forallb] in H. apply andb_false_iff in H as [H | H].
    + exists b. split; [now left | now apply negb_false_iff].
    + destruct (IH H) as (point & Hin & Hp). exists point.
      split; [now right | exact Hp].
  - intros [H | (point & Hin & Hp)]; [now left | right].
    destruct (forallb _ (points r)) eqn:E; [| reflexivity].
    rewrite forallb_forall in E. specialize (E point Hin).
    now rewrite Hp in E.
Qed.

Lemma writable_all_false slides_data :
  forallb writable slides_data = false <->
  exists r, In r slides_data /\ writable r = false.
Proof.
  split.
  - induction slides_data as [| r rs IH]; [discriminate |].
    cbn [forallb]. intros [H | H]%andb_false_iff.
    + exists r. split; [now left | exact H].
    + destruct (IH H) as (r' & Hin & Hr). exists r'.
      split; [now right | exact Hr].
  - intros (r & Hin & Hr).
    destruct (forallb writable slides_data) eqn:E; [| reflexivity].
    rewrite forallb_forall in E. specialize (E r Hin). congruence.
Qed.

(** X9: [create_ppt_from_slides] raises exactly when the title or a
    stripped point of some record holds a character that the document
    library refuses; when it returns it has written one file and touched
    no other: the name returned is the identifier with ".pptx", the
    document under the path of that name has one slide for every record,
    every other path holds what it held before, and for an identifier
    that does not start with a slash the path is "generated/" followed by
    the name. *)
Theorem X9_builder_writes_one_file
    (slides_data : list slide_record) (template uuid : str) (fs : files) :
  (create_ppt_from_slides slides_data template uuid fs = None <->
   exists r, In r slides_data /\
     (existsb xml_refused (title r) = true \/
      exists point, In point (points r) /\
                    existsb xml_refused (strip point) = true)) /\
  (forall filename fs',
     create_ppt_from_slides slides_data template uuid fs =
       Some (filename, fs') ->
     filename = uuid ++ py ".pptx" /\
     (exists prs, fs' !! path_join OUTPUT_DIR filename = Some prs /\
                  length (slides prs) = length slides_data) /\
     (forall path, path <> path_join OUTPUT_DIR filename ->
                   fs' !! path = fs !! path) /\
     (head uuid <> Some 47 ->
      path_join OUTPUT_DIR filename = py "generated/" ++ filename)).
Proof.
  rewrite create_ppt_eq. split.
  - destruct (forallb writable slides_data) eqn:Hw.
    + split; [discriminate |]. intros (r & Hin & Hr).
      apply writable_false in Hr.
      assert (forallb writable slides_data = false)
        by (apply writable_all_false; now exists r).
      congruence.
    + split; [intros _ | reflexivity].
      apply writable_all_false in Hw as (r & Hin & Hr).
      exists r. split; [exact Hin | now apply writable_false].
  - intros filename fs'.
    destruct (forallb writable slides_data); [| discriminate].
    intros H.
    assert (Hn : filename = uuid ++ py ".pptx") by congruence.
    assert (Hf : fs' =
              <[path_join OUTPUT_DIR (uuid ++ py ".pptx") :=
                  rendered_deck
                    (default modern_theme (theme_colors !! template))
                    slides_data]> fs) by congruence.
    clear H. subst filename fs'. split; [reflexivity |].
    split; [| split].
    + eexists. split; [apply lookup_insert_eq |].
      cbn [slides rendered_deck]. apply length_map.
    + intros path Hp. now apply lookup_insert_ne.
    + intros Hu. apply path_join_output_dir. now apply head_app_cons.
Qed.

Lemma X9_builder_writes_one_file_witness :
  create_ppt_from_slides [Slide (py "T") []] (py "dark") (py "1f0e") ∅ =
    Some (py "1f0e" ++ py ".pptx",
          <[path_join OUTPUT_DIR (py "1f0e" ++ py ".pptx") :=
              rendered_deck (Theme (RGBColor 15 15 15) (RGBColor 200 200 200))
                            [Slide (py "T") []]]> ∅) /\
  path_join OUTPUT_DIR (py "1f0e" ++ py ".pptx") =
    py "generated/" ++ (py "1f0e" ++ py ".pptx").
Proof.
  assert (H : create_ppt_from_slides [Slide (py "T") []] (py "dark")
                (py "1f0e") ∅ =
              Some (py "1f0e" ++ py ".pptx",
                    <[path_join OUTPUT_DIR (py "1f0e" ++ py ".pptx") :=
                        rendered_deck
                          (Theme (RGBColor 15 15 15) (RGBColor 200 200 200))
                          [Slide (py "T") []]]> ∅))
    by (vm_compute; reflexivity).
  split; [exact H |].
  destruct (proj2 (X9_builder_writes_one_file [Slide (py "T") []] (py "dark")
                     (py "1f0e") ∅) _ _ H) as (_ & _ & _ & Hpath).
  apply Hpath. discriminate.
Defined.

Lemma strip_last_not_space s c : last (strip s) = Some c -> is_space c = false.
Proof. apply (strip_by_last is_space). Qed.

Lemma strip_first_not_space s c : head (strip s) = Some c -> is_space c = false.
Proof. apply (strip_by_head is_space). Qed.

Lemma saved_deck_rendered slides_data template uuid :
  saved_deck slides_data template uuid =
    if forallb writable slides_data
    then Some (rendered_deck (default modern_theme (theme_colors !! template))
                             slides_data)
    else None.
Proof.
  unfold saved_deck. rewrite create_ppt_eq.
  destruct (forallb writable slides_data); [| reflexivity].
  cbn [mbind option_bind]. apply lookup_insert_eq.
Qed.

Lemma escape_control_shape c :
  escape_control c =
    95 :: 120 :: 48 :: 48 :: hex_digit (c / 16) :: hex_digit (c mod 16) :: [95].
Proof. reflexivity. Qed.

(** What is stored for a character that is not white space neither
    starts nor ends with white space, and is not empty. *)
Lemma stored_char_ends c :
  is_space c = false ->
  exists x m y, stored_char c = x :: m /\ last (stored_char c) = Some y /\
                is_space x = false /\ is_space y = false.
Proof.
  intros Hc. unfold stored_char.
  destruct ((c =? LF) || (c =? VT)) eqn:Hb.
  - apply orb_true_iff in Hb as [->%N.eqb_eq | ->%N.eqb_eq]; discriminate Hc.
  - destruct ((c <=? 8) || ((11 <=? c) && (c <=? 31))).
    + rewrite escape_control_shape. eexists _, _, _.
      split; [reflexivity |]. split; [reflexivity |]. split; reflexivity.
    + exists c, [], c. split; [reflexivity |]. split; [reflexivity |].
      split; exact Hc.
Qed.

Lemma stored_text_head t x :
  match head t with Some c => is_space c = false | None => True end ->
  head (stored_text t) = Some x -> is_space x = false.
Proof.
  destruct t as [| c t]; [discriminate |]. cbn [head]. intros Hc.
  destruct (stored_char_ends c Hc) as (a & m & y & E & _ & Ha & _).
  unfold stored_text. cbn [flat_map]. rewrite E. cbn [app head].
  now intros [= <-].
Qed.

Lemma stored_text_last t y :
  match last t with Some c => is_space c = false | None => True end ->
  last (stored_text t) = Some y -> is_space y = false.
Proof.
  destruct (last t) as [c |] eqn:El.
  - apply last_Some in El as (t' & ->). intros Hc.
    destruct (stored_char_ends c Hc) as (a & m & z & E & Hl & _ & Hz).
    unfold stored_text. rewrite flat_map_app. cbn [flat_map].
    rewrite app_nil_r, last_app, Hl. now intros [= <-].
  - apply last_None in El as ->. discriminate.
Qed.

(** X10: every bullet line of a saved document is the glyph, one space,
    and a text that neither starts nor ends with white space. *)
Theorem X10_bullet_lines_are_trimmed
    (slides_data : list slide_record) (template uuid : str)
    (prs : presentation) (sl : slide) (line : str) :
  saved_deck slides_data template uuid = Some prs ->
  In sl (slides prs) -> In line (bullet_lines sl) ->
  exists t,
    line = ARROW :: SPACE :: t /\
    match head t with Some c => is_space c = false | None => True end /\
    match last t with Some c => is_space c = false | None => True end.
Proof.
  rewrite saved_deck_rendered.
  destruct (forallb writable slides_data); [| discriminate].
  intros [= <-]. cbn [slides rendered_deck].
  intros Hsl Hline. apply in_map_iff in Hsl as (r & <- & _).
  cbn [bullet_lines rendered_slide shapes paragraphs tail] in Hline.
  rewrite map_map in Hline. apply in_map_iff in Hline as (p & <- & _).
  exists (stored_text (strip p)). split; [reflexivity |]. split.
  - destruct (head (stored_text (strip p))) eqn:E; [| exact I].
    apply (stored_text_head (strip p)); [| exact E].
    destruct (head (strip p)) eqn:Eh; [| exact I].
    eapply strip_first_not_space, Eh.
  - destruct (last (stored_text (strip p))) eqn:E; [| exact I].
    apply (stored_text_last (strip p)); [| exact E].
    destruct (last (strip p)) eqn:El; [| exact I].
    eapply strip_last_not_space, El.
Qed.

Lemma X10_bullet_lines_are_trimmed_witness :
  exists t,
    ARROW :: SPACE :: py "a" = ARROW :: SPACE :: t /\
    match head t with Some c => is_space c = false | None => True end /\
    match last t with Some c => is_space c = false | None => True end.
Proof.
  apply (X10_bullet_lines_are_trimmed [Slide (py "T") [py " a "]] (py "dark")
           (py "id")
           (Prs Inches_13_33 Inches_7_5
                [rendered_slide (Theme (RGBColor 15 15 15) (RGBColor 200 200 200))
                                (Slide (py "T") [py " a "])])
           (rendered_slide (Theme (RGBColor 15 15 15) (RGBColor 200 200 200))
                           (Slide (py "T") [py " a "]))).
  - vm_compute. reflexivity.
  - left. reflexivity.
  - vm_compute. left. reflexivity.
Defined.

(** ** Properties of the handlers *)

Lemma title_line_rendered colors r :
  title_line (rendered_slide colors r) = Some (stored_text (title r)).
Proof. reflexivity. Qed.

Lemma rendered_deck_titles colors slides_data :
  map title_line (slides (rendered_deck colors slides_data)) =
    map (fun r => Some (stored_text (title r))) slides_data.
Proof.
  cbn [slides rendered_deck]. rewrite map_map. apply map_ext.
  intros r. apply title_line_rendered.
Qed.

Lemma stored_titles_plain (records : list slide_record) :
  forallb (fun r => forallb plain (title r)) records = true ->
  map (fun r => Some (stored_text (title r))) records =
    map (fun r => Some (title r)) records.
Proof.
  intros H. apply map_ext_in. intros r Hin.
  rewrite forallb_forall in H. now rewrite stored_text_plain by now apply H.
Qed.

Lemma parse_slides_bound text max_slides :
  (0 <= max_slides)%Z ->
  (length (parse_slides text max_slides) <= Z.to_nat max_slides)%nat.
Proof.
  intros H. rewrite parse_slides_eq, slice_to_nonneg, length_take by exact H.
  lia.
Qed.

Lemma generated_url_path (uuid : str) :
  head uuid <> Some 47 ->
  generated_url (uuid ++ py ".pptx") =
    47 :: path_join OUTPUT_DIR (uuid ++ py ".pptx").
Proof.
  intros H. rewrite path_join_output_dir by now apply head_app_cons.
  reflexivity.
Qed.

(** X11: POST /generate-ppt writes nothing when it answers 400; when it
    answers 200 it has written one document, with one slide for each of
    the at most six records of the text, titled with the titles of the
    records as the document library stores them, which are the titles
    themselves when these hold no character below U+0020 other than the
    tab; it has left every other file alone, and the download_url of the
    answer is the path of the document behind a slash. *)
Theorem X11_generate_ppt_files
    (data : request_data) (uuid : str) (fs fs' : files) (resp : response) :
  generate_ppt_api data uuid fs = Some (resp, fs') ->
  let records := parse_slides (default [] (text_field data)) 6 in
  let path := path_join OUTPUT_DIR (uuid ++ py ".pptx") in
  (status resp <> 200%Z -> fs' = fs) /\
  (status resp = 200%Z ->
   (exists prs,
      fs' !! path = Some prs /\
      map title_line (slides prs) =
        map (fun r => Some (stored_text (title r))) records /\
      (forallb (fun r => forallb plain (title r)) records = true ->
       map title_line (slides prs) = map (fun r => Some (title r)) records) /\
      (1 <= length (slides prs) <= 6)%nat) /\
   (forall other, other <> path -> fs' !! other = fs !! other) /\
   (head uuid <> Some 47 ->
    In (py "download_url", JString (47 :: path)) (body resp))).
Proof.
  rewrite generate_ppt_cases.
  destruct (forallb is_space (default [] (text_field data))).
  - intros H records path.
    assert (Hr : status resp = 400%Z) by (injection H as <- _; reflexivity).
    assert (Hf : fs' = fs) by congruence.
    split; [intros _; exact Hf | congruence].
  - pose proof (parse_slides_bound (default [] (text_field data)) 6) as Hsix.
    destruct (parse_slides (default [] (text_field data)) 6) as [| r rs] eqn:Ep.
    + intros H records path.
      assert (Hr : status resp = 400%Z) by (injection H as <- _; reflexivity).
      assert (Hf : fs' = fs) by congruence.
      split; [intros _; exact Hf | congruence].
    + destruct (forallb writable (r :: rs)); [| discriminate].
      intros H records path.
      assert (Hr : resp =
                Response 200
                  [(py "success", JBool true);
                   (py "file_path", JString (generated_url (uuid ++ py ".pptx")));
                   (py "download_url",
                    JString (generated_url (uuid ++ py ".pptx")))])
        by congruence.
      assert (Hf : fs' =
                <[path :=
                    rendered_deck
                      (default modern_theme
                         (theme_colors !!
                            default (py "modern") (template_field data)))
                      (r :: rs)]> fs)
        by (unfold path; congruence).
      clear H. subst resp fs'. cbn [status body].
      split; [congruence |]. intros _. split; [| split].
      * eexists. split; [apply lookup_insert_eq |].
        rewrite rendered_deck_titles. split; [reflexivity |].
        split; [apply stored_titles_plain |].
        cbn [slides rendered_deck]. rewrite length_map.
        specialize (Hsix ltac:(lia)). cbn [length] in *. lia.
      * intros other Ho. now apply lookup_insert_ne.
      * intros Hu. right. right. left. do 2 f_equal.
        now apply generated_url_path.
Qed.

Lemma X11_generate_ppt_files_witness :
  let request := Request (Some (py "Slide 1: A")) None None None in
  let path := path_join OUTPUT_DIR (py "id" ++ py ".pptx") in
  let resp :=
    Response 200
      [(py "success", JBool true);
       (py "file_path", JString (generated_url (py "id" ++ py ".pptx")));
       (py "download_url", JString (generated_url (py "id" ++ py ".pptx")))] in
  let fs' : files :=
    <[path := Prs Inches_13_33 Inches_7_5
                  [rendered_slide modern_theme (Slide (py "A") [])]]> ∅ in
  generate_ppt_api request (py "id") ∅ = Some (resp, fs') /\
  exists prs,
    fs' !! path = Some prs /\
    map title_line (slides prs) =
      map (fun r => Some (stored_text (title r)))
          (parse_slides (py "Slide 1: A") 6) /\
    (forallb (fun r => forallb plain (title r))
             (parse_slides (py "Slide 1: A") 6) = true ->
     map title_line (slides prs) =
       map (fun r => Some (title r)) (parse_slides (py "Slide 1: A") 6)) /\
    (1 <= length (slides prs) <= 6)%nat.
Proof.
  intros request path resp fs'.
  assert (H : generate_ppt_api request (py "id") ∅ = Some (resp, fs'))
    by (vm_compute; reflexivity).
  split; [exact H |].
  exact (proj1 (proj2 (X11_generate_ppt_files request (py "id") ∅ fs' resp H)
                      eq_refl)).
Defined.

(** X12: POST /generate-auto-ppt has written nothing when it answers 400
    or 500; when it answers 200 the external model has replied with a text, the
    document written is titled with the titles of the records of that
    text as the document library stores them, it has as many slides as
    slides_generated says, at least one, and, for a slide count that is
    not negative, at most the slide count; so a slide count of 0 never
    gives a document. *)
Theorem X12_generate_auto_ppt_files (model : str -> Z -> option str)
    (data : request_data) (uuid : str) (fs fs' : files) (resp : response) :
  generate_auto_ppt_api model data uuid fs = Some (resp, fs') ->
  let topic := strip (default [] (topic_field data)) in
  let slide_count := default 6%Z (slide_count_field data) in
  let path := path_join OUTPUT_DIR (uuid ++ py ".pptx") in
  (status resp <> 200%Z -> fs' = fs) /\
  (status resp = 200%Z ->
   exists ai_text prs,
     model topic slide_count = Some ai_text /\
     fs' !! path = Some prs /\
     map title_line (slides prs) =
       map (fun r => Some (stored_text (title r)))
           (parse_slides ai_text slide_count) /\
     In (py "slides_generated", JInt (Z.of_nat (length (slides prs))))
        (body resp) /\
     (1 <= length (slides prs))%nat /\
     ((0 <= slide_count)%Z ->
      (Z.of_nat (length (slides prs)) <= slide_count)%Z) /\
     (forall other, other <> path -> fs' !! other = fs !! other)) /\
  (slide_count = 0%Z -> status resp <> 200%Z).
Proof.
  intros H topic slide_count path.
  assert (Hmain :
    (status resp <> 200%Z -> fs' = fs) /\
    (status resp = 200%Z ->
     exists ai_text prs,
       model topic slide_count = Some ai_text /\
       fs' !! path = Some prs /\
       map title_line (slides prs) =
         map (fun r => Some (stored_text (title r)))
             (parse_slides ai_text slide_count) /\
       In (py "slides_generated", JInt (Z.of_nat (length (slides prs))))
          (body resp) /\
       (1 <= length (slides prs))%nat /\
       ((0 <= slide_count)%Z ->
        (Z.of_nat (length (slides prs)) <= slide_count)%Z) /\
       (forall other, other <> path -> fs' !! other = fs !! other))).
  { revert H. rewrite generate_auto_ppt_cases. fold topic slide_count.
    destruct topic as [| c t].
    - intros H.
      assert (Hr : status resp = 400%Z) by (injection H as <- _; reflexivity).
      assert (Hf : fs' = fs) by congruence.
      split; [intros _; exact Hf | congruence].
    - destruct (model (c :: t) slide_count) as [[| a ai_text] |] eqn:Em.
      + intros H.
        assert (Hr : status resp = 500%Z) by (injection H as <- _; reflexivity).
        assert (Hf : fs' = fs) by congruence.
        split; [intros _; exact Hf | congruence].
      + pose proof (parse_slides_bound (a :: ai_text) slide_count) as Hcut.
        cbv zeta.
        destruct (parse_slides (a :: ai_text) slide_count) as [| r rs] eqn:Ep.
        * intros H.
          assert (Hr : status resp = 400%Z)
            by (injection H as <- _; reflexivity).
          assert (Hf : fs' = fs) by congruence.
          split; [intros _; exact Hf | congruence].
        * destruct (forallb writable (r :: rs)); [| discriminate].
          intros H.
          assert (Hr : resp =
                    Response 200
                      [(py "success", JBool true);
                       (py "file_path",
                        JString (generated_url (uuid ++ py ".pptx")));
                       (py "download_url",
                        JString (generated_url (uuid ++ py ".pptx")));
                       (py "slides_generated",
                        JInt (Z.of_nat (length (r :: rs))))])
            by congruence.
          assert (Hf : fs' =
                    <[path :=
                        rendered_deck
                          (default modern_theme
                             (theme_colors !!
                                default (py "modern") (template_field data)))
                          (r :: rs)]> fs)
            by (unfold path; congruence).
          clear H. subst resp fs'. cbn [status body].
          split; [congruence |]. intros _. exists (a :: ai_text). eexists.
          split; [reflexivity |]. split; [apply lookup_insert_eq |].
          rewrite Ep, rendered_deck_titles. split; [reflexivity |].
          cbn [slides rendered_deck]. rewrite length_map.
          split; [do 3 right; now left |].
          split; [cbn [length]; lia |].
          split; [intros H0; specialize (Hcut H0); lia |].
          intros other Ho. now apply lookup_insert_ne.
      + intros H.
        assert (Hr : status resp = 500%Z) by (injection H as <- _; reflexivity).
        assert (Hf : fs' = fs) by congruence.
        split; [intros _; exact Hf | congruence]. }
  destruct Hmain as [Hfail Hok]. split; [exact Hfail |]. split; [exact Hok |].
  intros H0 H200.
  destruct (Hok H200) as (ai_text & prs & _ & _ & _ & _ & H1 & Hle & _).
  specialize (Hle ltac:(lia)). lia.
Qed.

Lemma X12_generate_auto_ppt_files_witness :
  let request := Request None (Some (py "Cats")) None (Some 0%Z) in
  let resp :=
    Response 400
      [(py "success", JBool false);
       (py "error", JString (py "AI did not return valid slides"))] in
  generate_auto_ppt_api (fun _ _ => Some five_segments) request (py "id") ∅ =
    Some (resp, ∅) /\
  status resp <> 200%Z.
Proof.
  intros request resp.
  assert (H : generate_auto_ppt_api (fun _ _ => Some five_segments) request
                (py "id") ∅ = Some (resp, ∅))
    by (vm_compute; reflexivity).
  split; [exact H |].
  exact (proj2 (proj2 (X12_generate_auto_ppt_files _ request (py "id") ∅ ∅
                         resp H)) eq_refl).
Defined.

(** X13: the template name never changes the answer: with any other
    name, or with none, both handlers return the same status and the same
    body. *)
Theorem X13_template_never_changes_answer (model : str -> Z -> option str)
    (data : request_data) (template : option str) (uuid : str) (fs : files) :
  fst <$> generate_ppt_api (with_template data template) uuid fs =
    fst <$> generate_ppt_api data uuid fs /\
  fst <$> generate_auto_ppt_api model (with_template data template) uuid fs =
    fst <$> generate_auto_ppt_api model data uuid fs.
Proof.
  split.
  - unfold generate_ppt_api. cbn [with_template text_field template_field].
    destruct (strip (default [] (text_field data))) as [| c t];
      cbn [truthy negb]; [reflexivity |].
    destruct (parse_slides (c :: t) 6) as [| r rs]; [reflexivity |].
    rewrite !create_ppt_eq.
    now destruct (forallb writable (r :: rs)).
  - unfold generate_auto_ppt_api, generate_ppt_content.
    cbn [with_template topic_field template_field slide_count_field].
    destruct (strip (default [] (topic_field data))) as [| c t];
      cbn [truthy negb]; [reflexivity |].
    destruct (model (c :: t) (default 6%Z (slide_count_field data)))
      as [[| a ai_text] |]; [reflexivity | | reflexivity].
    destruct (parse_slides (a :: ai_text) (default 6%Z (slide_count_field data)))
      as [| r rs]; [reflexivity |].
    rewrite !create_ppt_eq.
    now destruct (forallb writable (r :: rs)).
Qed.

(** ** The outline format and back *)

Lemma split_one sep l : ~ In sep l -> split sep l = [l].
Proof.
  induction l as [| c l IH]; intros H; [reflexivity |].
  cbn [split]. destruct (c =? sep) eqn:Ec.
  - apply N.eqb_eq in Ec. subst c. destruct H. now left.
  - rewrite IH; [reflexivity |]. intros Hin. apply H. now right.
Qed.

Lemma split_app_sep sep l s :
  ~ In sep l -> split sep (l ++ sep :: s) = l :: split sep s.
Proof.
  induction l as [| c l IH]; intros H.
  - cbn [app split]. now rewrite N.eqb_refl.
  - cbn [app split]. destruct (c =? sep) eqn:Ec.
    + apply N.eqb_eq in Ec. subst c. destruct H. now left.
    + rewrite IH; [reflexivity |]. intros Hin. apply H. now right.
Qed.

Lemma split_join_lines lines :
  lines <> [] -> (forall l, In l lines -> ~ In LF l) ->
  split LF (join_lines lines) = lines.
Proof.
  induction lines as [| l ls IH]; intros Hne H; [congruence |].
  cbn [join_lines]. destruct ls as [| l' ls].
  - apply split_one, H. now left.
  - rewrite split_app_sep by (apply H; now left).
    f_equal. apply IH; [discriminate |]. intros x Hx. apply H. now right.
Qed.

Lemma head_not_in_class_lstrip (cls : char -> bool) x c :
  head x = Some c -> cls c = false -> lstrip_by cls x = x.
Proof. destruct x as [| y x]; [discriminate |]. intros [= ->] H. cbn. now rewrite H. Qed.

Lemma head_rev (x : str) : head (rev x) = last x.
Proof. rewrite <- (rev_involutive x) at 2. symmetry. apply last_rev. Qed.

Lemma last_not_in_class_rstrip (cls : char -> bool) x c :
  last x = Some c -> cls c = false -> rstrip_by cls x = x.
Proof.
  intros Hl Hc. unfold rstrip_by.
  rewrite (head_not_in_class_lstrip cls (rev x) c); [apply rev_involutive | | exact Hc].
  now rewrite head_rev.
Qed.

Lemma edge_ok_inv o :
  edge_ok o = true -> exists c, o = Some c /\ is_glyph c = false /\ is_space c = false.
Proof.
  destruct o as [c |]; [| discriminate]. cbn. intros H.
  apply negb_true_iff, orb_false_iff in H. now exists c.
Qed.

Lemma solid_inv x :
  solid x = true ->
  ~ In LF x /\ occurs (py "Slide") x = false /\
  (exists c, head x = Some c /\ is_glyph c = false /\ is_space c = false) /\
  (exists c, last x = Some c /\ is_glyph c = false /\ is_space c = false).
Proof.
  unfold solid. intros H.
  apply andb_true_iff in H as [H H4]. apply andb_true_iff in H as [H H3].
  apply andb_true_iff in H as [H1 H2].
  apply negb_true_iff in H1, H2. repeat split.
  - intros Hin. assert (E : existsb (N.eqb LF) x = true); [| congruence].
    apply existsb_exists. exists LF. split; [exact Hin | apply N.eqb_refl].
  - exact H2.
  - now apply edge_ok_inv.
  - now apply edge_ok_inv.
Qed.

(** A solid text survives both strips unchanged. *)
Lemma solid_strip_chars x : solid x = true -> strip_chars glyphs x = x.
Proof.
  intros H. apply solid_inv in H as (_ & _ & (c & Hh & Hg & _) & (d & Hl & Hg' & _)).
  unfold strip_chars, strip_by. fold is_glyph.
  rewrite (head_not_in_class_lstrip _ _ _ Hh Hg).
  exact (last_not_in_class_rstrip _ _ _ Hl Hg').
Qed.

Lemma bullet_line_strip (indent p : str) :
  forallb (N.eqb SPACE) indent = true -> solid p = true ->
  strip_chars glyphs (bullet_line indent p) = p.
Proof.
  intros Hi Hp. pose proof (solid_strip_chars _ Hp) as E.
  unfold strip_chars, strip_by in *. fold is_glyph in *.
  unfold bullet_line.
  assert (Hg : forallb is_glyph (indent ++ py "- ") = true).
  { rewrite forallb_app. apply andb_true_iff. split; [| reflexivity].
    apply forallb_forall. intros c Hc.
    apply (forallb_In _ _ _ Hi), N.eqb_eq in Hc. now subst c. }
  rewrite app_assoc, (lstrip_by_inside _ _ _ Hg).
  exact E.
Qed.

Lemma has_non_space_nonblank l c : In c l -> is_space c = false -> nonblank l.
Proof.
  intros Hin Hc. unfold nonblank.
  destruct (strip l) eqn:E; [| reflexivity].
  apply strip_empty_iff in E. rewrite (forallb_In _ _ _ E Hin) in Hc. discriminate.
Qed.

Lemma head_In (x : str) c : head x = Some c -> In c x.
Proof. destruct x; [discriminate |]. intros [= ->]. now left. Qed.

Lemma solid_nonblank x : solid x = true -> nonblank x.
Proof.
  intros H. apply solid_inv in H as (_ & _ & (c & Hh & _ & Hs) & _).
  eapply has_non_space_nonblank; [apply head_In, Hh | exact Hs].
Qed.

Lemma bullet_line_nonblank (indent p : str) : nonblank (bullet_line indent p).
Proof.
  apply (has_non_space_nonblank _ HYPHEN); [| reflexivity].
  unfold bullet_line. apply in_or_app. right. now left.
Qed.

Lemma bullet_line_no_newline (indent p : str) :
  forallb (N.eqb SPACE) indent = true -> ~ In LF p ->
  ~ In LF (bullet_line indent p).
Proof.
  intros Hi Hp. unfold bullet_line. rewrite !in_app_iff.
  intros [H | [H | H]].
  - apply (forallb_In _ _ _ Hi) in H. discriminate.
  - vm_compute in H. intuition discriminate.
  - now apply Hp.
Qed.

Lemma filter_all_kept (lines : list str) :
  (forall l, In l lines -> nonblank l) -> filter nonblank lines = lines.
Proof.
  induction lines as [| l ls IH]; intros H; [reflexivity |].
  rewrite filter_cons_True by (apply H; now left).
  f_equal. apply IH. intros x Hx. apply H. now right.
Qed.

Lemma starts_with_app_out w : forall u c s,
  ~ In c w -> starts_with w (u ++ c :: s) = true -> starts_with w u = true.
Proof.
  induction w as [| c0 w IH]; intros u c s Hc; [reflexivity |].
  destruct u as [| a u]; cbn [app starts_with].
  - intros H. apply andb_true_iff in H as [H _]. apply N.eqb_eq in H.
    subst c0. destruct Hc. now left.
  - intros H. apply andb_true_iff in H as [Ha H]. rewrite Ha. cbn.
    apply (IH u c s); [| exact H]. intros Hin. apply Hc. now right.
Qed.

Lemma starts_with_nil w : w <> [] -> starts_with w [] = false.
Proof. destruct w; [congruence | reflexivity]. Qed.

(** A word does not occur across a character that it does not hold. *)
Lemma occurs_app_out w x c s :
  w <> [] -> ~ In c w ->
  occurs w x = false -> occurs w s = false ->
  occurs w (x ++ c :: s) = false.
Proof.
  intros Hw Hc Hx Hs. induction x as [| a x IH].
  - cbn [app occurs]. rewrite Hs, orb_false_r.
    destruct (starts_with w (c :: s)) eqn:E; [| reflexivity].
    apply (starts_with_app_out w [] c s Hc) in E.
    now rewrite starts_with_nil in E.
  - cbn [occurs] in Hx. apply orb_false_iff in Hx as [Ha Hx].
    cbn [app occurs]. rewrite (IH Hx), orb_false_r.
    destruct (starts_with w (a :: x ++ c :: s)) eqn:E; [| reflexivity].
    apply (starts_with_app_out w (a :: x) c s Hc) in E. congruence.
Qed.

Lemma occurs_nil w : w <> [] -> occurs w [] = false.
Proof. intros H. cbn. now rewrite starts_with_nil. Qed.

Lemma occurs_prefix_out w pre s :
  w <> [] -> (forall c, In c pre -> ~ In c w) ->
  occurs w s = false -> occurs w (pre ++ s) = false.
Proof.
  intros Hw Hpre Hs. induction pre as [| c pre IH]; [exact Hs |].
  change ((c :: pre) ++ s) with ([] ++ c :: (pre ++ s)).
  apply occurs_app_out; [exact Hw | | now apply occurs_nil |].
  - apply Hpre. now left.
  - apply IH. intros d Hd. apply Hpre. now right.
Qed.

Lemma occurs_join_lines w lines :
  w <> [] -> ~ In LF w ->
  (forall l, In l lines -> occurs w l = false) ->
  occurs w (join_lines lines) = false.
Proof.
  intros Hw Hlf. induction lines as [| l ls IH]; intros H.
  - now apply occurs_nil.
  - cbn [join_lines]. destruct ls as [| l' ls]; [apply H; now left |].
    apply occurs_app_out; [exact Hw | exact Hlf | apply H; now left |].
    apply IH. intros x Hx. apply H. now right.
Qed.

Lemma word_Slide_facts :
  py "Slide" <> [] /\ ~ In LF (py "Slide") /\
  ~ In SPACE (py "Slide") /\ ~ In HYPHEN (py "Slide").
Proof. vm_compute. repeat split; intuition discriminate. Qed.

Lemma bullet_line_no_word (indent p : str) :
  forallb (N.eqb SPACE) indent = true ->
  occurs (py "Slide") p = false ->
  occurs (py "Slide") (bullet_line indent p) = false.
Proof.
  intros Hi Hp. destruct word_Slide_facts as (Hw & _ & Hsp & Hhy).
  unfold bullet_line. rewrite app_assoc.
  apply occurs_prefix_out; [exact Hw | | exact Hp].
  intros c Hc. apply in_app_or in Hc as [Hc | Hc].
  - apply (forallb_In _ _ _ Hi), N.eqb_eq in Hc. now subst c.
  - cbn in Hc. destruct Hc as [<- | [<- | []]]; assumption.
Qed.

Lemma join_lines_last (lines : list str) :
  lines <> [] ->
  (forall l, In l lines -> exists c, last l = Some c /\ is_space c = false) ->
  exists c, last (join_lines lines) = Some c /\ is_space c = false.
Proof.
  induction lines as [| l ls IH]; intros Hne H; [congruence |].
  cbn [join_lines]. destruct ls as [| l' ls]; [apply H; now left |].
  destruct IH as (c & Hc & Hs); [discriminate | |].
  - intros x Hx. apply H. now right.
  - exists c. split; [| exact Hs].
    rewrite last_app. cbn [last]. rewrite last_cons, Hc. reflexivity.
Qed.

Section OutlineSlide.

Variables (indent : str) (r : slide_record).
Hypothesis Hindent : forallb (N.eqb SPACE) indent = true.
Hypothesis Htitle : solid (title r) = true.
Hypothesis Hpoints : forallb solid (points r) = true.

Local Abbreviation body := (join_lines (outline_lines indent r)).

Lemma point_solid p : In p (points r) -> solid p = true.
Proof using Hpoints.
  intros H. exact (proj1 (forallb_forall _ _) Hpoints _ H).
Qed.

Lemma outline_lines_facts l :
  In l (outline_lines indent r) ->
  ~ In LF l /\ nonblank l /\ occurs (py "Slide") l = false /\
  (exists c, last l = Some c /\ is_space c = false).
Proof using Hindent Htitle Hpoints.
  unfold outline_lines. intros [<- | H].
  - pose proof (solid_nonblank _ Htitle) as Hnb.
    apply solid_inv in Htitle as (H1 & H2 & _ & (c & Hl & _ & Hs)).
    repeat split; try assumption. now exists c.
  - apply in_map_iff in H as (p & <- & Hp). apply point_solid in Hp.
    apply solid_inv in Hp as (H1 & H2 & _ & (c & Hl & _ & Hs)).
    split; [now apply bullet_line_no_newline |].
    split; [apply bullet_line_nonblank |].
    split; [now apply bullet_line_no_word |].
    exists c. split; [| exact Hs]. unfold bullet_line.
    rewrite !last_app, Hl. reflexivity.
Qed.

Lemma body_last : exists c, last body = Some c /\ is_space c = false.
Proof using Hindent Htitle Hpoints.
  apply join_lines_last; [discriminate |].
  intros l Hl. now apply outline_lines_facts.
Qed.

Lemma body_head : exists c, head body = Some c /\ is_space c = false.
Proof using Hindent Htitle Hpoints.
  pose proof Htitle as H.
  apply solid_inv in H as (_ & _ & (c & Hh & _ & Hs) & _).
  exists c. split; [| exact Hs]. unfold outline_lines.
  cbn [join_lines]. destruct (map (bullet_line indent) (points r)).
  - exact Hh.
  - destruct (title r); [discriminate | exact Hh].
Qed.

Lemma body_strip : strip body = body.
Proof using Hindent Htitle Hpoints.
  destruct body_head as (c & Hh & Hc). destruct body_last as (d & Hl & Hd).
  unfold strip, strip_by. rewrite (head_not_in_class_lstrip _ _ _ Hh Hc).
  exact (last_not_in_class_rstrip _ _ _ Hl Hd).
Qed.

(** The lines of a slide give its record back. *)
Lemma body_record : segment_record body = [r].
Proof using Hindent Htitle Hpoints.
  unfold segment_record, segment_lines. fold nonblank.
  rewrite body_strip.
  rewrite split_join_lines;
    [| discriminate | intros l Hl; now apply outline_lines_facts].
  rewrite filter_all_kept by (intros l Hl; now apply outline_lines_facts).
  unfold outline_lines. cbn [map].
  rewrite (solid_strip_chars _ Htitle), map_map.
  rewrite (map_ext_in _ (fun p => p)), map_id; [now destruct r |].
  intros p Hp. apply bullet_line_strip; [exact Hindent | now apply point_solid].
Qed.

Lemma body_no_marker : has_marker body = false.
Proof using Hindent Htitle Hpoints.
  apply occurs_false_no_marker.
  destruct word_Slide_facts as (Hw & Hlf & _).
  apply occurs_join_lines; [exact Hw | exact Hlf |].
  intros l Hl. now apply outline_lines_facts.
Qed.

End OutlineSlide.

Lemma segment_end_no_stop b :
  has_marker b = false -> last b <> Some LF -> segment_end b = [].
Proof.
  induction b as [| c b IH]; intros Hm Hl.
  - reflexivity.
  - cbn [has_marker] in Hm. apply orb_false_iff in Hm as [Hm Hb].
    cbn [segment_end]. unfold segment_stop.
    rewrite marker_at_end in Hm.
    destruct (marker_end (c :: b)); [discriminate |].
    destruct b as [| c' b].
    + cbn [at_end]. destruct (c =? LF) eqn:E; [| reflexivity].
      apply N.eqb_eq in E. subst c. now destruct Hl.
    + cbn [at_end]. apply IH; [exact Hb |]. now rewrite last_cons_cons in Hl.
Qed.

Lemma spaces_are_space (indent : str) :
  forallb (N.eqb SPACE) indent = true -> forallb is_space indent = true.
Proof.
  intros H. apply forallb_forall. intros c Hc.
  apply (forallb_In _ _ _ H), N.eqb_eq in Hc. now subst c.
Qed.

Lemma item_ok_inv item :
  item_ok item = true ->
  fst item <> [] /\ forallb is_digit (fst item) = true /\
  solid (title (snd item)) = true /\ forallb solid (points (snd item)) = true.
Proof.
  unfold item_ok. intros H.
  apply andb_true_iff in H as [H H4]. apply andb_true_iff in H as [H H3].
  apply andb_true_iff in H as [H1 H2].
  repeat split; try assumption. intros E. now rewrite E in H1.
Qed.

(** The slide without its indentation starts with a marker, whatever
    follows it. *)
Lemma slide_core_marker number (body rest : str) :
  number <> [] -> forallb is_digit number = true ->
  marker_end (py "Slide " ++ number ++ py ": " ++ body ++ rest) =
    Some (SPACE :: body ++ rest).
Proof.
  intros Hne Hd. apply marker_end_shape. exists [SPACE], number, [].
  split; [reflexivity | repeat split; assumption].
Qed.

(** One slide of an outline, followed by white space, gives its record. *)
Lemma slide_records (indent : str) item (ws : str) :
  forallb (N.eqb SPACE) indent = true -> item_ok item = true ->
  forallb is_space ws = true ->
  flat_map segment_record
    (findall slide_pattern (outline_slide indent item ++ ws)) = [snd item].
Proof.
  intros Hi Hitem Hws.
  apply item_ok_inv in Hitem as (Hne & Hd & Ht & Hp).
  unfold outline_slide. rewrite <- app_assoc.
  rewrite findall_skip by now apply space_marker_before, spaces_are_space.
  set (body := join_lines (outline_lines indent (snd item))).
  replace ((py "Slide " ++ fst item ++ py ": " ++ body) ++ ws)
    with ((py "Slide " ++ fst item ++ py ": " ++ body ++ []) ++ ws)
    by now rewrite app_nil_r.
  rewrite (records_app_space ws Hws _ _ (Nat.lt_succ_diag_r _)).
  rewrite findall_unfold. unfold scan_slide.
  rewrite (slide_core_marker _ body [] Hne Hd), app_nil_r.
  destruct (body_head indent (snd item) Hi Ht Hp) as (c & Hh & Hc).
  destruct (body_last indent (snd item) Hi Ht Hp) as (d & Hl & Hdsp).
  fold body in Hh, Hl.
  assert (Hstrip : lstrip_by is_space (SPACE :: body) = body).
  { cbn [lstrip_by]. change (is_space SPACE) with true. cbn.
    exact (head_not_in_class_lstrip _ _ _ Hh Hc). }
  rewrite Hstrip.
  rewrite (segment_end_no_stop body).
  - cbn [default group1 rest flat_map length]. unfold id.
    rewrite Nat.sub_0_r, firstn_all. unfold body. rewrite (body_record indent (snd item) Hi Ht Hp).
    reflexivity.
  - exact (body_no_marker indent (snd item) Hi Ht Hp).
  - rewrite Hl. intros [= ->]. discriminate Hdsp.
Qed.

Lemma join_lines_cons (x : str) (more : list str) :
  exists tail, join_lines (x :: more) = x ++ tail.
Proof.
  cbn [join_lines]. destruct more.
  - exists []. now rewrite app_nil_r.
  - eexists. reflexivity.
Qed.

(** An outline parses back into the records it was written from. *)
Lemma outline_records (indent : str) items :
  forallb (N.eqb SPACE) indent = true -> forallb item_ok items = true ->
  flat_map segment_record (findall slide_pattern (outline indent items)) =
    map snd items.
Proof.
  intros Hi. induction items as [| item items IH]; intros Hok; [reflexivity |].
  cbn [forallb] in Hok. apply andb_true_iff in Hok as [Hitem Hok].
  unfold outline in *. cbn [map join_lines].
  destruct items as [| item2 items].
  - cbn [map]. rewrite <- (app_nil_r (outline_slide indent item)).
    now apply slide_records.
  - specialize (IH Hok).
    cbn [map] in *.
    destruct (join_lines_cons (outline_slide indent item2)
                (map (outline_slide indent) items)) as (tail & Etail).
    rewrite Etail in *.
    cbn [forallb] in Hok. apply andb_true_iff in Hok as [Hitem2 _].
    apply item_ok_inv in Hitem2 as (Hne & Hd & _).
    unfold outline_slide at 2. unfold outline_slide at 1 in IH.
    set (core := py "Slide " ++ fst item2 ++ py ": " ++
                 join_lines (outline_lines indent (snd item2))) in *.
    assert (Hm : marker_at (core ++ tail) = true).
    { rewrite marker_at_end. unfold core. rewrite <- !app_assoc.
      now rewrite (slide_core_marker _ _ tail Hne Hd). }
    rewrite <- app_assoc in IH.
    rewrite findall_skip in IH
      by now apply space_marker_before, spaces_are_space.
    assert (Etext :
      outline_slide indent item ++ LF :: (indent ++ core) ++ tail =
      (outline_slide indent item ++ LF :: indent) ++ (core ++ tail))
      by (rewrite <- !app_assoc; reflexivity).
    rewrite Etext.
    rewrite (records_app_marker _ Hm _ _ (Nat.lt_succ_diag_r _)), IH.
    rewrite (slide_records indent item (LF :: indent) Hi Hitem).
    + reflexivity.
    + cbn [forallb]. now rewrite spaces_are_space.
Qed.

(** X14: a reply in the format that the prompt asks for parses into the
    records it shows: for titles and points that are on one line, hold no
    "Slide" and neither start nor end with white space, a hyphen or a
    bullet dot, and for any numbers and any indentation by spaces,
    [parse_slides] returns the records of the outline, the first
    [max_slides] of them. *)
Theorem X14_outline_round_trip
    (indent : str) (items : list (str * slide_record)) (max_slides : Z) :
  forallb (N.eqb SPACE) indent = true -> forallb item_ok items = true ->
  parse_all (outline indent items) = map snd items /\
  ((0 <= max_slides)%Z ->
   parse_slides (outline indent items) max_slides =
     take (Z.to_nat max_slides) (map snd items)).
Proof.
  intros Hi Hok.
  assert (E : parse_all (outline indent items) = map snd items)
    by (rewrite parse_all_eq; now apply outline_records).
  split; [exact E |]. intros Hm. now rewrite parse_slides_take, E.
Qed.

Lemma X14_outline_round_trip_witness :
  let items :=
    [(py "1", Slide (py "Intro") [py "point a"; py "point b"]);
     (py "2", Slide (py "Conclusion") [py "point c"])] in
  outline [] items = scenario /\
  parse_all (outline [] items) = map snd items /\
  ((0 <= 6)%Z ->
   parse_slides (outline [] items) 6 = take (Z.to_nat 6) (map snd items)).
Proof.
  intros items. split; [reflexivity |].
  apply (X14_outline_round_trip [] items 6%Z); reflexivity.
Defined.

(** ** The prompt *)

Lemma uint_chars d c :
  In c (py (NilEmpty.string_of_uint d)) -> is_digit c = true.
Proof.
  unfold py. induction d as [| d IH | d IH | d IH | d IH | d IH
                              | d IH | d IH | d IH | d IH | d IH];
    cbn [NilEmpty.string_of_uint list_ascii_of_string map];
    try contradiction;
    (intros [<- | H]; [reflexivity | now apply IH]).
Qed.

Lemma str_of_int_chars n c :
  In c (str_of_int n) -> is_digit c = true \/ c = HYPHEN.
Proof.
  unfold str_of_int.
  assert (Hu : forall d, In c (py (NilZero.string_of_uint d)) -> is_digit c = true).
  { intros d. unfold NilZero.string_of_uint.
    destruct d;
      try match goal with
          | |- In _ (py (NilEmpty.string_of_uint ?x)) -> _ =>
              apply (uint_chars x)
          end.
    cbn. intros [<- | []]. reflexivity. }
  destruct (Z.to_int n) as [d | d]; cbn [NilZero.string_of_int].
  - intros H. left. exact (Hu d H).
  - unfold py. cbn [list_ascii_of_string map]. intros [<- | H].
    + now right.
    + left. exact (Hu d H).
Qed.

Lemma str_of_int_no_word n : occurs (py "Slide") (str_of_int n) = false.
Proof.
  rewrite <- (app_nil_r (str_of_int n)).
  apply occurs_prefix_out; [discriminate | | reflexivity].
  intros c Hc Hin. apply str_of_int_chars in Hc as [Hd | ->].
  - vm_compute in Hin.
    repeat (destruct Hin as [<- | Hin]; [vm_compute in Hd; discriminate |]).
    contradiction.
  - vm_compute in Hin. intuition discriminate.
Qed.

(** No marker starts in a text without the word, closed by a character
    that the word does not hold. *)
Lemma no_word_marker_before (pre : str) c (suf : str) :
  occurs (py "Slide") pre = false -> ~ In c (py "Slide") ->
  marker_before (pre ++ [c]) suf = false.
Proof.
  intros Hpre Hc. induction pre as [| a pre IH].
  - cbn [app marker_before]. rewrite orb_false_r.
    destruct (marker_at (c :: suf)) eqn:E; [| reflexivity].
    apply marker_at_first in E. subst c. destruct Hc. now left.
  - cbn [occurs] in Hpre. apply orb_false_iff in Hpre as [Ha Hpre].
    cbn [app marker_before]. rewrite (IH Hpre), orb_false_r.
    destruct (marker_at (a :: (pre ++ [c]) ++ suf)) eqn:E; [| reflexivity].
    apply marker_at_starts in E. rewrite <- app_assoc in E.
    apply (starts_with_app_out _ (a :: pre) c suf Hc) in E. congruence.
Qed.

Lemma prompt_shape topic slide_count :
  prompt_text topic slide_count =
    prompt_head topic slide_count ++
    outline (py "    ") [(py "1", prompt_example)] ++ LF :: py "    ".
Proof.
  unfold prompt_text, prompt_head. rewrite <- !app_assoc. reflexivity.
Qed.

Lemma prompt_head_no_marker topic slide_count (suf : str) :
  occurs (py "Slide") topic = false ->
  marker_before (prompt_head topic slide_count) suf = false.
Proof.
  intros Ht. destruct word_Slide_facts as (Hw & Hlf & Hsp & _).
  assert (Hq : ~ In QUOTE (py "Slide")) by (vm_compute; intuition discriminate).
  set (a := [LF] ++
            py "    Create a PowerPoint presentation outline on the topic: ").
  set (b := py "." ++ [LF] ++ py "    Include exactly").
  set (c := py "slides." ++ [LF] ++ py "    Format exactly like this:" ++ [LF]).
  assert (E : prompt_head topic slide_count =
              (a ++ QUOTE :: topic ++ QUOTE :: b ++ SPACE ::
               str_of_int slide_count ++ SPACE :: c) ++ [LF]).
  { unfold prompt_head, a, b, c.
    repeat (rewrite <- app_assoc || rewrite <- app_comm_cons). reflexivity. }
  rewrite E. apply no_word_marker_before; [| exact Hlf].
  apply occurs_app_out; [exact Hw | exact Hq | reflexivity |].
  apply occurs_app_out; [exact Hw | exact Hq | exact Ht |].
  apply occurs_app_out; [exact Hw | exact Hsp | reflexivity |].
  apply occurs_app_out; [exact Hw | exact Hsp | | reflexivity].
  apply str_of_int_no_word.
Qed.

(** X15: the example in the prompt of [generate_ppt_content] is written
    in the format that [parse_slides] reads: the prompt ends with the
    outline of one slide, and for every slide count and every topic
    without the word "Slide" the prompt itself parses into that slide. *)
Theorem X15_prompt_example_parses (topic : str) (slide_count : Z) :
  occurs (py "Slide") topic = false ->
  prompt_text topic slide_count =
    prompt_head topic slide_count ++
    outline (py "    ") [(py "1", prompt_example)] ++ LF :: py "    " /\
  parse_all (prompt_text topic slide_count) = [prompt_example].
Proof.
  intros Ht. split; [apply prompt_shape |].
  rewrite parse_all_eq, prompt_shape.
  rewrite findall_skip by now apply prompt_head_no_marker.
  unfold outline. cbn [map join_lines].
  now apply slide_records.
Qed.

Lemma X15_prompt_example_parses_witness :
  occurs (py "Slide") (py "Cats") = false /\
  parse_all (prompt_text (py "Cats") 6) = [prompt_example].
Proof.
  split; [reflexivity |].
  exact (proj2 (X15_prompt_example_parses (py "Cats") 6%Z eq_refl)).
Defined.

(** X16: both handlers build the same document from the same text: what
    POST /generate-ppt writes for a text is what POST /generate-auto-ppt
    writes, with the default slide count, when the external model replies
    with that text. *)
Theorem X16_handlers_build_alike
    (ai_text topic : str) (template : option str) (uuid : str) (fs : files) :
  strip topic <> [] ->
  snd <$> generate_ppt_api (Request (Some ai_text) None template None) uuid fs =
  snd <$> generate_auto_ppt_api (fun _ _ => Some ai_text)
            (Request None (Some topic) template None) uuid fs.
Proof.
  intros Htopic.
  unfold generate_ppt_api, generate_auto_ppt_api, generate_ppt_content.
  cbn [text_field topic_field template_field slide_count_field].
  change (default [] (Some ai_text)) with ai_text.
  change (default [] (Some topic)) with topic.
  change (default 6%Z None) with 6%Z.
  rewrite parse_slides_strip.
  destruct (strip topic) as [| c t] eqn:Et; [congruence |]; cbn [truthy negb].
  destruct (strip ai_text) as [| a s] eqn:Es; cbn [truthy negb].
  - assert (Hp : parse_slides ai_text 6 = []).
    { rewrite <- parse_slides_strip, Es. reflexivity. }
    destruct ai_text as [| x ai_text]; [reflexivity |].
    rewrite Hp. reflexivity.
  - destruct ai_text as [| x ai_text]; [discriminate Es |].
    destruct (parse_slides (x :: ai_text) 6) as [| r rs]; [reflexivity |].
    now destruct (create_ppt_from_slides (r :: rs)
                    (default (py "modern") template) uuid fs) as [[? ?] |].
Qed.

Lemma X16_handlers_build_alike_witness :
  snd <$> generate_ppt_api (Request (Some scenario) None None None) (py "id") ∅ =
  snd <$> generate_auto_ppt_api (fun _ _ => Some scenario)
            (Request None (Some (py "Cats")) None None) (py "id") ∅.
Proof.
  apply (X16_handlers_build_alike scenario (py "Cats") None (py "id") ∅).
  vm_compute. discriminate.
Defined.
